(** * ATS scoring service ([backend/services/ats_score.py])

    A shallow embedding of the [ATSScorer] class: the six section
    checkers, the keyword matcher, the suggestion generator and the
    aggregator [analyze_resume_data], followed by the properties the
    specification states about them.

    Conventions of the embedding.
    - Python values are the JSON-like fragment the scorer receives:
      [None], booleans, integers, strings, lists and string-keyed
      dictionaries (kept as association lists in insertion order, which
      is what [str()] prints).  Floating-point values are not part of the
      input fragment; the one float the scorer computes, [match_rate], is
      a binary64 number of [SpecFloat].
    - A character is a code point below 256; the 256 values of [ascii]
      are read as U+0000..U+00FF, so [len] is [String.length].
    - Code that can raise returns [result]; [try/except Exception] is a
      match on it.  [str()] raises where the interpreter does, past the
      recursion limit and past the digit limit of integers; both limits
      are parameters ([limits]).
    - Integers are unbounded, hence [Z]. *)

From stdpp Require Import base gmap strings list pretty.
From Stdlib Require Import ZArith Ascii SpecFloat.
Local Open Scope string_scope.
Local Open Scope Z_scope.
Set Warnings "-register-all".

(** ** Python values and exceptions *)

Inductive pyval : Type :=
| PNone
| PBool (b : bool)
| PInt (n : Z)
| PStr (s : string)
| PList (l : list pyval)
| PDict (items : list (string * pyval)).

(** The exceptions the scorer's code can raise on such values.  Each
    constructor stands for one message shape of CPython. *)
Inductive exn : Type :=
| AttributeError (ty attr : string)   (* 'ty' object has no attribute 'attr' *)
| TypeError_len (ty : string)         (* object of type 'ty' has no len() *)
| TypeError_iter (ty : string)        (* 'ty' object is not iterable *)
| TypeError_join (i : nat) (ty : string)
                                      (* sequence item i: expected str instance, ty found *)
| TypeError_re (ty : string)          (* expected string or bytes-like object *)
| KeyError (k : string)
| ZeroDivisionError
| OverflowError                       (* integer division result too large for a float *)
| RecursionError                      (* maximum recursion depth exceeded *)
| ValueError_digits.                  (* Exceeds the limit for integer string conversion *)

Inductive result (A : Type) : Type :=
| Ok (a : A)
| Raise (e : exn).
Arguments Ok {A} a.
Arguments Raise {A} e.

Global Instance result_ret : MRet result := fun A a => Ok a.
Global Instance result_bind : MBind result := fun A B f m =>
  match m with
  | Ok a => f a
  | Raise e => Raise e
  end.

(** [type(v).__name__] *)
Definition type_name (v : pyval) : string :=
  match v with
  | PNone => "NoneType"
  | PBool _ => "bool"
  | PInt _ => "int"
  | PStr _ => "str"
  | PList _ => "list"
  | PDict _ => "dict"
  end.

(** [bool(v)] *)
Definition truthy (v : pyval) : bool :=
  match v with
  | PNone => false
  | PBool b => b
  | PInt n => negb (n =? 0)
  | PStr s => negb (String.eqb s "")
  | PList l => match l with [] => false | _ => true end
  | PDict items => match items with [] => false | _ => true end
  end.

Fixpoint dict_lookup (k : string) (items : list (string * pyval)) : option pyval :=
  match items with
  | [] => None
  | (k', v) :: rest => if String.eqb k k' then Some v else dict_lookup k rest
  end.

(** [o.get(k, d)]; only dictionaries have a [get] method. *)
Definition py_get (o : pyval) (k : string) (d : pyval) : result pyval :=
  match o with
  | PDict items => Ok (default d (dict_lookup k items))
  | _ => Raise (AttributeError (type_name o) "get")
  end.

(** [len(v)] *)
Definition py_len (v : pyval) : result Z :=
  match v with
  | PStr s => Ok (Z.of_nat (String.length s))
  | PList l => Ok (Z.of_nat (length l))
  | PDict items => Ok (Z.of_nat (length items))
  | _ => Raise (TypeError_len (type_name v))
  end.

Fixpoint chars_of (s : string) : list pyval :=
  match s with
  | EmptyString => []
  | String c rest => PStr (String c EmptyString) :: chars_of rest
  end.

(** The items a [for] loop or a comprehension draws from [v]: the
    elements of a list, the characters of a string, the keys of a
    dictionary. *)
Definition py_iter (v : pyval) : result (list pyval) :=
  match v with
  | PList l => Ok l
  | PStr s => Ok (chars_of s)
  | PDict items => Ok (map (fun kv => PStr (fst kv)) items)
  | _ => Raise (TypeError_iter (type_name v))
  end.

(** ** Strings *)

Definition code (c : ascii) : N := N_of_ascii c.

Definition in_range (lo hi : N) (c : ascii) : bool :=
  ((lo <=? code c) && (code c <=? hi))%N.

(** [str.lower] on one code point: A-Z, and the capital letters of the
    Latin-1 supplement (U+00C0..U+00DE without the multiplication sign). *)
Definition lower_char (c : ascii) : ascii :=
  if in_range 65 90 c || in_range 192 214 c || in_range 216 222 c
  then ascii_of_N (code c + 32)
  else c.

Fixpoint lower (s : string) : string :=
  match s with
  | EmptyString => EmptyString
  | String c rest => String (lower_char c) (lower rest)
  end.

(** [needle in hay] *)
Fixpoint is_substring (needle hay : string) : bool :=
  String.prefix needle hay ||
  match hay with
  | EmptyString => false
  | String _ rest => is_substring needle rest
  end.

(** [s.endswith(suffix)] *)
Definition endswith (s suffix : string) : bool :=
  let n := String.length s in
  let m := String.length suffix in
  (m <=? n)%nat && String.eqb (String.substring (n - m) m s) suffix.

(** [sep.join(parts)] on strings *)
Fixpoint join (sep : string) (parts : list string) : string :=
  match parts with
  | [] => ""
  | [p] => p
  | p :: rest => p ++ sep ++ join sep rest
  end.

Definition py_lower (v : pyval) : result string :=
  match v with
  | PStr s => Ok (lower s)
  | _ => Raise (AttributeError (type_name v) "lower")
  end.

Definition py_endswith (v : pyval) (suffix : string) : result bool :=
  match v with
  | PStr s => Ok (endswith s suffix)
  | _ => Raise (AttributeError (type_name v) "endswith")
  end.

(** [sep.join(items)] on values: every item has to be a string; the first
    one that is not raises [TypeError] with its index. *)
Fixpoint str_items (i : nat) (items : list pyval) : result (list string) :=
  match items with
  | [] => Ok []
  | PStr s :: rest => tl ← str_items (S i) rest; mret (s :: tl)
  | v :: _ => Raise (TypeError_join i (type_name v))
  end.

Definition py_join (sep : string) (items : list pyval) : result string :=
  parts ← str_items 0 items; mret (join sep parts).

(** [a // b] on integers *)
Definition py_floordiv (a b : Z) : result Z :=
  if b =? 0 then Raise ZeroDivisionError else Ok (a / b).

(** ** Numbers

    A Python [float] is an IEEE 754 binary64 number: [spec_float] with a
    precision of 53 bits and a largest exponent of 1024, rounded to
    nearest even. *)

Inductive number : Type :=
| Int (n : Z)
| Float (f : spec_float).

(** The integer [n] as a significand with exponent 0.  The operations
    below round the exact result of the operation on such operands. *)
Definition float_of_int (n : Z) : spec_float :=
  match n with
  | Z0 => S754_zero false
  | Zpos p => S754_finite false p 0
  | Zneg p => S754_finite true p 0
  end.

Definition fdiv (x y : spec_float) : spec_float := SFdiv 53 1024 x y.
Definition fmul (x y : spec_float) : spec_float := SFmul 53 1024 x y.
Definition fleb (x y : spec_float) : bool := SFleb x y.

(** [a / b] on integers: the quotient, correctly rounded to a float. *)
Definition py_truediv (a b : Z) : result spec_float :=
  if b =? 0 then Raise ZeroDivisionError
  else match fdiv (float_of_int a) (float_of_int b) with
       | S754_infinity _ => Raise OverflowError
       | q => Ok q
       end.

(** [x * 100] for a float [x]: the integer is converted (exactly) and the
    product rounded. *)
Definition times_100 (x : spec_float) : spec_float := fmul x (float_of_int 100).

(** ** [str()] of a value

    [_check_formatting] and [_check_formatting_issues] look at
    [str(resume_data)], the [repr] of the dictionary. *)

Definition hex_digit (n : N) : ascii :=
  if (n <? 10)%N then ascii_of_N (48 + n) else ascii_of_N (87 + n).

(** Code points [repr] writes as an escape: the C0 and C1 controls and
    DEL, the no-break space and the soft hyphen. *)
Definition printable (c : ascii) : bool :=
  negb (in_range 0 31 c || in_range 127 160 c || (code c =? 173)%N).

Definition repr_char (quote : ascii) (c : ascii) : string :=
  if Ascii.eqb c quote || Ascii.eqb c "\"%char then String "\" (String c "")
  else if (code c =? 9)%N then "\t"
  else if (code c =? 10)%N then "\n"
  else if (code c =? 13)%N then "\r"
  else if printable c then String c ""
  else String "\" (String "x"
         (String (hex_digit (code c / 16)) (String (hex_digit (code c mod 16)) ""))).

(** The double-quote character. *)
Definition dquote : ascii := "034"%char.

Fixpoint has_char (c : ascii) (s : string) : bool :=
  match s with
  | EmptyString => false
  | String d rest => Ascii.eqb c d || has_char c rest
  end.

Fixpoint repr_chars (quote : ascii) (s : string) : string :=
  match s with
  | EmptyString => ""
  | String c rest => repr_char quote c ++ repr_chars quote rest
  end.

(** [repr] of a string: single quotes, unless the string has a single
    quote and no double quote. *)
Definition repr_str (s : string) : string :=
  let quote := if has_char "'" s && negb (has_char dquote s) then dquote else "'"%char in
  String quote (repr_chars quote s) ++ String quote "".

(** What the interpreter allows [str()] at a call site: [call_depth] is
    the number of nested calls the recursion limit still admits there,
    [max_str_digits] the bound on the decimal digits of a printed integer
    ([sys.set_int_max_str_digits]; 0 for none). *)
Record limits : Type := {
  call_depth : nat;
  max_str_digits : Z
}.

(** A sample: 1000 calls left, and the default limit of 4300 digits. *)
Definition default_limits : limits :=
  {| call_depth := 1000; max_str_digits := 4300 |}.

(** [f] on every item in turn, up to the first one that raises. *)
Fixpoint map_result {A B : Type} (f : A -> result B) (l : list A) : result (list B) :=
  match l with
  | [] => Ok []
  | x :: rest => y ← f x; ys ← map_result f rest; mret (y :: ys)
  end.

(** [repr] of an integer: [ValueError] when it has more digits than the
    limit. *)
Definition repr_int (max_digits : Z) (n : Z) : result string :=
  if (0 <? max_digits) && (max_digits <? Z.of_nat (String.length (pretty (Z.abs n))))
  then Raise ValueError_digits
  else Ok (pretty n).

(** [repr(v)] with [depth] nested calls left: every value printed, a key
    or a leaf included, takes one call, and a container prints its items
    one call deeper. *)
Fixpoint py_repr (max_digits : Z) (depth : nat) (v : pyval) : result string :=
  match depth with
  | O => Raise RecursionError
  | S d =>
      match v with
      | PNone => Ok "None"
      | PBool true => Ok "True"
      | PBool false => Ok "False"
      | PInt n => repr_int max_digits n
      | PStr s => Ok (repr_str s)
      | PList l =>
          parts ← map_result (py_repr max_digits d) l;
          mret ("[" ++ join ", " parts ++ "]")
      | PDict items =>
          parts ← map_result (fun kv =>
                     k ← py_repr max_digits d (PStr (fst kv));
                     v ← py_repr max_digits d (snd kv);
                     mret (k ++ ": " ++ v)) items;
          mret ("{" ++ join ", " parts ++ "}")
      end
  end.

(** [str(v)]: a string is returned as it is, before any recursion check;
    for every other value the call of [str] runs the [repr] of the value
    itself, so it counts as the call of [repr] does. *)
Definition py_str (lim : limits) (v : pyval) : result string :=
  match v with
  | PStr s => Ok s
  | _ => py_repr (max_str_digits lim) (call_depth lim) v
  end.

(** ** Regular expressions

    Character classes of [re] on [str] patterns (Unicode matching is the
    default), restricted to code points below 256. *)

(** [\d] *)
Definition is_digit (c : ascii) : bool := in_range 48 57 c.

(** [\s] *)
Definition is_space (c : ascii) : bool :=
  in_range 9 13 c || in_range 28 32 c || (code c =? 133)%N || (code c =? 160)%N.

(** [[a-zA-Z]] *)
Definition is_letter (c : ascii) : bool := in_range 97 122 c || in_range 65 90 c.

(** [\w]: alphanumeric code points and the underscore. *)
Definition is_word (c : ascii) : bool :=
  is_letter c || is_digit c || (code c =? 95)%N
  || (code c =? 170)%N || (code c =? 181)%N || (code c =? 186)%N
  || in_range 178 179 c || (code c =? 185)%N || in_range 188 190 c
  || in_range 192 214 c || in_range 216 246 c || in_range 248 255 c.

Inductive regex : Type :=
| Void
| Eps
| Cls (p : ascii -> bool)
| Cat (r1 r2 : regex)
| Alt (r1 r2 : regex)
| Star (r : regex).

Definition Chr (c : ascii) : regex := Cls (Ascii.eqb c).
Definition Plus (r : regex) : regex := Cat r (Star r).
Definition Opt (r : regex) : regex := Alt r Eps.

Fixpoint Lit (s : string) : regex :=
  match s with
  | EmptyString => Eps
  | String c rest => Cat (Chr c) (Lit rest)
  end.

Fixpoint nullable (r : regex) : bool :=
  match r with
  | Void => false
  | Eps => true
  | Cls _ => false
  | Cat r1 r2 => nullable r1 && nullable r2
  | Alt r1 r2 => nullable r1 || nullable r2
  | Star _ => true
  end.

Definition cat (r1 r2 : regex) : regex :=
  match r1, r2 with
  | Void, _ => Void
  | _, Void => Void
  | Eps, _ => r2
  | _, _ => Cat r1 r2
  end.

Definition alt (r1 r2 : regex) : regex :=
  match r1, r2 with
  | Void, _ => r2
  | _, Void => r1
  | _, _ => Alt r1 r2
  end.

(** Brzozowski derivative: what is left of [r] after reading [c]. *)
Fixpoint deriv (c : ascii) (r : regex) : regex :=
  match r with
  | Void => Void
  | Eps => Void
  | Cls p => if p c then Eps else Void
  | Cat r1 r2 =>
      if nullable r1 then alt (cat (deriv c r1) r2) (deriv c r2)
      else cat (deriv c r1) r2
  | Alt r1 r2 => alt (deriv c r1) (deriv c r2)
  | Star r1 => cat (deriv c r1) (Star r1)
  end.

(** Some prefix of [s] matches [r]. *)
Fixpoint matches_prefix (r : regex) (s : string) : bool :=
  nullable r ||
  match s with
  | EmptyString => false
  | String c rest => matches_prefix (deriv c r) rest
  end.

(** [re.search(r, s)] finds a match: some position of [s] starts one. *)
Fixpoint search (r : regex) (s : string) : bool :=
  matches_prefix r s ||
  match s with
  | EmptyString => false
  | String _ rest => search r rest
  end.

Definition re_search (r : regex) (v : pyval) : result bool :=
  match v with
  | PStr s => Ok (search r s)
  | _ => Raise (TypeError_re (type_name v))
  end.

(** [\d+%|\$\d+|\d+\s*(?:years?|months?)] *)
Definition achievement_re : regex :=
  Alt (Cat (Plus (Cls is_digit)) (Chr "%"))
 (Alt (Cat (Chr "$") (Plus (Cls is_digit)))
      (Cat (Plus (Cls is_digit))
      (Cat (Star (Cls is_space))
           (Alt (Cat (Lit "year") (Opt (Chr "s")))
                (Cat (Lit "month") (Opt (Chr "s"))))))).

(** *** [re.findall(r'\b[a-zA-Z]{3,}\b', text)]

    The pattern has word-boundary assertions, so it is scanned directly:
    a match attempt at a position needs a boundary there, takes the
    longest run of letters, and gives letters back one at a time (never
    below three) until a boundary follows. *)

Definition is_word_opt (c : option ascii) : bool :=
  match c with
  | Some c => is_word c
  | None => false
  end.

(** [\b] between [prev] and [next] ([None] at either end of the text). *)
Definition at_boundary (prev next : option ascii) : bool :=
  xorb (is_word_opt prev) (is_word_opt next).

Definition first_char (s : string) : option ascii :=
  match s with
  | EmptyString => None
  | String c _ => Some c
  end.

(** The longest prefix of letters, and what follows it. *)
Fixpoint span_letters (s : string) : string * string :=
  match s with
  | EmptyString => ("", "")
  | String c rest =>
      if is_letter c
      then let '(run, after) := span_letters rest in (String c run, after)
      else ("", s)
  end.

(** End the match after [n] letters of [run] if a boundary follows them,
    otherwise after fewer; [{3,}] keeps at least three. *)
Fixpoint backtrack (n : nat) (run after : string) : option string :=
  match n with
  | O => None
  | S n' =>
      let following := String.substring n (String.length run - n) run ++ after in
      if (3 <=? n)%nat && at_boundary (String.get n' run) (first_char following)
      then Some (String.substring 0 n run)
      else backtrack n' run after
  end.

(** One match attempt at the position between [prev] and [s]. *)
Definition match_word (prev : option ascii) (s : string) : option string :=
  if at_boundary prev (first_char s)
  then let '(run, after) := span_letters s in backtrack (String.length run) run after
  else None.

(** The scan: [skip] counts the characters of the last match still to
    pass. *)
Fixpoint findall_from (prev : option ascii) (skip : nat) (s : string) : list string :=
  match s with
  | EmptyString => []
  | String c rest =>
      match skip with
      | S k => findall_from (Some c) k rest
      | O =>
          match match_word prev s with
          | Some w => w :: findall_from (Some c) (String.length w - 1) rest
          | None => findall_from (Some c) 0 rest
          end
      end
  end.

Definition findall_words (text : string) : list string := findall_from None 0 text.

(** ** The keyword dictionary ([ATSScorer.__init__]) *)

Definition technical : list string :=
  [ "python"; "java"; "javascript"; "sql"; "html"; "css"; "react"; "node";
    "aws"; "cloud"; "docker"; "kubernetes"; "git"; "agile"; "scrum";
    "machine learning"; "data analysis"; "excel"; "statistics";
    "project management"; "communication"; "leadership"; "problem solving" ].

Definition soft_skills : list string :=
  [ "teamwork"; "collaboration"; "communication"; "leadership";
    "problem solving"; "critical thinking"; "time management";
    "adaptability"; "creativity"; "initiative" ].

Definition action_verbs : list string :=
  [ "achieved"; "led"; "developed"; "created"; "implemented";
    "managed"; "increased"; "decreased"; "improved"; "designed";
    "organized"; "coordinated"; "analyzed"; "presented"; "trained" ].

(** [self.keywords], in insertion order. *)
Definition keywords : list (string * list string) :=
  [ ("technical", technical); ("soft_skills", soft_skills); ("action_verbs", action_verbs) ].

(** The loop [for category in self.keywords.values():
    all_keywords.update(category)], starting from the empty set. *)
Definition all_keywords : gset string :=
  foldl (fun acc category => acc ∪ list_to_set category) ∅ (map snd keywords).

(** ** Section checkers *)

Definition _check_contact_info (resume_data : pyval) : result Z :=
  let score := 0 in
  email ← py_get resume_data "email" PNone;
  let score := if truthy email then score + 25 else score in
  phone ← py_get resume_data "phone" PNone;
  let score := if truthy phone then score + 25 else score in
  city ← py_get resume_data "city" PNone;
  located ← (if truthy city then mret true
             else country ← py_get resume_data "country" PNone; mret (truthy country));
  let score := if located : bool then score + 25 else score in
  full_name ← py_get resume_data "full_name" PNone;
  let score := if truthy full_name then score + 25 else score in
  mret score.

Definition _check_summary (resume_data : pyval) : result Z :=
  summary ← py_get resume_data "summary" (PStr "");
  if negb (truthy summary) then mret 0 else
  let score := 30 in
  n ← py_len summary;
  let score := if (100 <=? n) && (n <=? 500) then score + 25
               else if 500 <? n then score + 15
               else score in
  summary_lower ← py_lower summary;
  let score := if existsb (fun kw => is_substring kw summary_lower) (take 5 action_verbs)
               then score + 20 else score in
  ends ← py_endswith summary ".";
  let score := if negb ends then score - 10 else score in
  mret (Z.min 100 (Z.max 0 score)).

(** [resume_data.get(key, resume_data.get('content', {}).get(key, []))]:
    the default is an argument, so it is evaluated whether or not [key]
    is present. *)
Definition section_entries (resume_data : pyval) (key : string) : result pyval :=
  content ← py_get resume_data "content" (PDict []);
  fallback ← py_get content key (PList []);
  py_get resume_data key fallback.

(** [sum(1 for e in entries if e.get(key))] *)
Fixpoint count_with (key : string) (entries : list pyval) : result Z :=
  match entries with
  | [] => Ok 0
  | e :: rest =>
      v ← py_get e key PNone;
      n ← count_with key rest;
      mret ((if truthy v then 1 else 0) + n)
  end.

(** [any(e.get(key) for e in entries)]; stops at the first truthy one. *)
Fixpoint any_with (key : string) (entries : list pyval) : result bool :=
  match entries with
  | [] => Ok false
  | e :: rest =>
      v ← py_get e key PNone;
      if truthy v then mret true else any_with key rest
  end.

(** The loop over the descriptions that sets [achievements_found] and
    leaves at the first match. *)
Fixpoint achievements_found (entries : list pyval) : result bool :=
  match entries with
  | [] => Ok false
  | exp :: rest =>
      desc ← py_get exp "description" (PStr "");
      found ← re_search achievement_re desc;
      if found : bool then mret true else achievements_found rest
  end.

Definition _check_experience (resume_data : pyval) : result Z :=
  experiences ← section_entries resume_data "experiences";
  if negb (truthy experiences) then mret 0 else
  let score := 30 in
  n ← py_len experiences;
  let score := if 2 <=? n then score + 20
               else if 1 <=? n then score + 10
               else score in
  entries ← py_iter experiences;
  has_descriptions ← count_with "description" entries;
  half ← py_floordiv n 2;
  let score := if half <=? has_descriptions then score + 25 else score in
  found ← achievements_found entries;
  let score := if found : bool then score + 25 else score in
  mret (Z.min 100 score).

Definition _check_education (resume_data : pyval) : result Z :=
  education ← section_entries resume_data "education";
  if negb (truthy education) then mret 0 else
  let score := 40 in
  entries ← py_iter education;
  has_degree ← any_with "degree" entries;
  let score := if has_degree : bool then score + 30 else score in
  has_institution ← any_with "institution" entries;
  let score := if has_institution : bool then score + 20 else score in
  mret (Z.min 100 score).

Definition _check_skills (resume_data : pyval) : result Z :=
  skills ← section_entries resume_data "skills";
  if negb (truthy skills) then mret 0 else
  let score := 30 in
  n ← py_len skills;
  let score := if 10 <=? n then score + 25
               else if 5 <=? n then score + 15
               else score in
  entries ← py_iter skills;
  has_categories ← any_with "category" entries;
  let score := if has_categories : bool then score + 20 else score in
  has_levels ← any_with "level" entries;
  let score := if has_levels : bool then score + 25 else score in
  mret (Z.min 100 score).

Definition _check_formatting (lim : limits) (resume_data : pyval) : result Z :=
  let score := 100 in
  text ← py_str lim resume_data;
  let score := if is_substring "table" (lower text) then score - 30 else score in
  let score := if existsb (fun h => is_substring h text)
                    ["Experience"; "Education"; "Skills"; "Summary"]
               then score + 10 else score in
  mret (Z.min 100 (Z.max 0 score)).

(** ** Formatting issues *)

Record FormattingIssue : Type := {
  issue_type : string;
  issue_message : string;
  issue_severity : string
}.

(** The loop over [required_sections]; [str(resume_data)] is evaluated
    again for every section. *)
Fixpoint absent_sections (lim : limits) (resume_data : pyval) (sections : list string)
  : result (list string) :=
  match sections with
  | [] => Ok []
  | section :: rest =>
      text ← py_str lim resume_data;
      others ← absent_sections lim resume_data rest;
      mret (if is_substring section (lower text) then others else section :: others)
  end.

Definition _check_formatting_issues (lim : limits) (resume_data : pyval)
  : result (list FormattingIssue) :=
  let issues := [] in
  text ← py_str lim resume_data;
  let issues :=
    if Z.of_nat (String.length text) <? 500 then
      (issues ++ [ {| issue_type := "content_length";
                      issue_message := "Resume content appears too short";
                      issue_severity := "warning" |} ])%list
    else if 10000 <? Z.of_nat (String.length text) then
      (issues ++ [ {| issue_type := "content_length";
                      issue_message := "Resume content may be too long";
                      issue_severity := "info" |} ])%list
    else issues in
  let required_sections := ["summary"; "experience"; "education"; "skills"] in
  missing_sections ← absent_sections lim resume_data required_sections;
  mret match missing_sections with
       | [] => issues
       | _ => (issues ++ [ {| issue_type := "missing_sections";
                              issue_message := "Missing sections: "
                                               ++ join ", " missing_sections;
                              issue_severity := "warning" |} ])%list
       end.

(** ** Keyword matcher, suggestion generator and aggregator *)

Record KeywordAnalysis : Type := {
  matched : list string;
  missing : list string;
  match_rate : number;
  total_matched : Z;
  total_missing : Z
}.

Record Suggestion : Type := {
  sug_type : string;
  sug_message : string;
  sug_priority : string
}.

Record AnalysisReport : Type := {
  overall_score : Z;
  section_scores : list (string * Z);
  keywords_found : list string;
  missing_keywords : list string;
  suggestions : list Suggestion;
  formatting_issues : list FormattingIssue;
  keyword_analysis : KeywordAnalysis
}.

(** What [extract_keywords] returns when it succeeds. *)
Record KeywordExtraction : Type := {
  resume_keywords : list string;
  job_keywords : list string;
  matched_keywords : list string;
  unmatched_keywords : list string
}.

(** The dictionary a public method returns: the payload with
    ['success': True], or ['success': False] with the error. *)
Inductive response (A : Type) : Type :=
| Success (payload : A)
| Failure (error : exn).
Arguments Success {A} payload.
Arguments Failure {A} error.

(** [try: ... except Exception as e: return {'success': False, 'error': str(e)}] *)
Definition try_except {A : Type} (body : result A) : response A :=
  match body with
  | Ok a => Success a
  | Raise e => Failure e
  end.

Definition success {A : Type} (r : response A) : bool :=
  match r with
  | Success _ => true
  | Failure _ => false
  end.

(** [[e.get(key, '') for e in entries]] *)
Fixpoint fields_of (key : string) (entries : list pyval) : result (list pyval) :=
  match entries with
  | [] => Ok []
  | e :: rest =>
      v ← py_get e key (PStr "");
      vs ← fields_of key rest;
      mret (v :: vs)
  end.

(** [' '.join([e.get(field, '') for e in resume_data.get(key, [])])] *)
Definition joined_fields (resume_data : pyval) (key field : string) : result string :=
  section ← py_get resume_data key (PList []);
  entries ← py_iter section;
  values ← fields_of field entries;
  py_join " " values.

(** [resume_data.get('content', {}).get('summary', '')] *)
Definition content_summary (resume_data : pyval) : result pyval :=
  content ← py_get resume_data "content" (PDict []);
  py_get content "summary" (PStr "").

(** The resume text [_analyze_keywords] tokenizes. *)
Definition analyzed_text (resume_data : pyval) : result string :=
  summary ← py_get resume_data "summary" (PStr "");
  inner ← content_summary resume_data;
  descriptions ← joined_fields resume_data "experiences" "description";
  names ← joined_fields resume_data "skills" "name";
  py_join " " [summary; inner; PStr descriptions; PStr names].

(** The resume text [extract_keywords] tokenizes. *)
Definition extracted_text (resume_data : pyval) : result string :=
  summary ← py_get resume_data "summary" (PStr "");
  inner ← content_summary resume_data;
  descriptions ← joined_fields resume_data "experiences" "description";
  studies ← joined_fields resume_data "education" "description";
  names ← joined_fields resume_data "skills" "name";
  py_join " " [summary; inner; PStr descriptions; PStr studies; PStr names].

(** [set(re.findall(r'\b[a-zA-Z]{3,}\b', text.lower()))] *)
Definition word_set (text : string) : gset string :=
  list_to_set (findall_words (lower text)).

(** [job_words]: empty unless the job description is truthy. *)
Definition job_words_of (job_description : pyval) : result (gset string) :=
  if truthy job_description
  then text ← py_lower job_description; mret (list_to_set (findall_words text))
  else mret ∅.

Section Scorer.

(** [list(s)] on a set: CPython lists the elements in hash order, which
    changes from one process to the next; the order is a parameter. *)
Variable list_of_set : gset string -> list string.

Definition _analyze_keywords (resume_data job_description : pyval)
  : result KeywordAnalysis :=
  all_text ← analyzed_text resume_data;
  let resume_words := word_set all_text in
  job_words ← job_words_of job_description;
  let matched := list_of_set (resume_words ∩ job_words ∩ all_keywords) in
  let missing := list_of_set ((job_words ∖ resume_words) ∩ all_keywords) in
  match_rate ← (if decide (job_words ∩ all_keywords = ∅) then mret (Int 0)
                else ratio ← py_truediv (Z.of_nat (length matched))
                                        (Z.of_nat (size (job_words ∩ all_keywords)));
                     mret (Float (times_100 ratio)));
  mret {| matched := matched;
          missing := missing;
          match_rate := match_rate;
          total_matched := Z.of_nat (length matched);
          total_missing := Z.of_nat (length missing) |}.

Definition extract_keywords (resume_data job_description : pyval)
  : response KeywordExtraction :=
  try_except (
    all_text ← extracted_text resume_data;
    let resume_words := word_set all_text in
    job_words ← job_words_of job_description;
    let matched := list_of_set (resume_words ∩ job_words ∩ all_keywords) in
    let missing := list_of_set ((job_words ∖ resume_words) ∩ all_keywords) in
    mret {| resume_keywords := list_of_set (resume_words ∩ all_keywords);
            job_keywords := list_of_set (job_words ∩ all_keywords);
            matched_keywords := matched;
            unmatched_keywords := missing |}).

End Scorer.

(** [scores[key]] *)
Fixpoint py_index (scores : list (string * Z)) (key : string) : result Z :=
  match scores with
  | [] => Raise (KeyError key)
  | (k, v) :: rest => if String.eqb key k then Ok v else py_index rest key
  end.

Definition quoted (s : string) : string := String dquote s ++ String dquote "".

Definition suggest_contact_info : Suggestion :=
  {| sug_type := "contact_info";
     sug_message := "Add missing contact information";
     sug_priority := "high" |}.

Definition suggest_summary : Suggestion :=
  {| sug_type := "summary";
     sug_message := "Add or improve your professional summary";
     sug_priority := "high" |}.

Definition suggest_experience : Suggestion :=
  {| sug_type := "experience";
     sug_message := "Add more work experience with descriptions";
     sug_priority := "high" |}.

Definition suggest_skills : Suggestion :=
  {| sug_type := "skills";
     sug_message := "Add more skills with proficiency levels";
     sug_priority := "medium" |}.

Definition suggest_keywords (top_missing : list string) : Suggestion :=
  {| sug_type := "keywords";
     sug_message := "Consider adding these keywords: " ++ join ", " top_missing;
     sug_priority := "medium" |}.

Definition suggest_action_verbs : Suggestion :=
  {| sug_type := "content";
     sug_message := "Use strong action verbs like " ++ quoted "achieved" ++ ", "
                    ++ quoted "led" ++ ", " ++ quoted "developed";
     sug_priority := "low" |}.

Definition suggest_quantify : Suggestion :=
  {| sug_type := "content";
     sug_message := "Quantify achievements with numbers and percentages";
     sug_priority := "medium" |}.

Definition _generate_suggestions (scores : list (string * Z)) (ka : KeywordAnalysis)
  : result (list Suggestion) :=
  let suggestions := [] in
  contact_info ← py_index scores "contact_info";
  let suggestions := if contact_info <? 75
                     then (suggestions ++ [suggest_contact_info])%list else suggestions in
  summary ← py_index scores "summary";
  let suggestions := if summary <? 50
                     then (suggestions ++ [suggest_summary])%list else suggestions in
  experience ← py_index scores "experience";
  let suggestions := if experience <? 50
                     then (suggestions ++ [suggest_experience])%list else suggestions in
  skills ← py_index scores "skills";
  let suggestions := if skills <? 50
                     then (suggestions ++ [suggest_skills])%list else suggestions in
  let suggestions :=
    match missing ka with
    | [] => suggestions
    | _ => (suggestions ++ [suggest_keywords (take 5 (missing ka))])%list
    end in
  let suggestions := (suggestions ++ [suggest_action_verbs])%list in
  let suggestions := (suggestions ++ [suggest_quantify])%list in
  mret suggestions.

Fixpoint sum_Z (l : list Z) : Z :=
  match l with
  | [] => 0
  | x :: rest => x + sum_Z rest
  end.

Section Aggregator.

Variable list_of_set : gset string -> list string.
Variable lim : limits.

(** The body of the [try] in [analyze_resume_data]. *)
Definition analysis (resume_data job_description : pyval) : result AnalysisReport :=
  contact_info ← _check_contact_info resume_data;
  summary ← _check_summary resume_data;
  experience ← _check_experience resume_data;
  education ← _check_education resume_data;
  skills ← _check_skills resume_data;
  formatting ← _check_formatting lim resume_data;
  let scores := [ ("contact_info", contact_info); ("summary", summary);
                  ("experience", experience); ("education", education);
                  ("skills", skills); ("formatting", formatting) ] in
  overall_score ← py_floordiv (sum_Z (map snd scores)) (Z.of_nat (length scores));
  keyword_analysis ← _analyze_keywords list_of_set resume_data job_description;
  suggestions ← _generate_suggestions scores keyword_analysis;
  formatting_issues ← _check_formatting_issues lim resume_data;
  mret {| overall_score := overall_score;
          section_scores := scores;
          keywords_found := matched keyword_analysis;
          missing_keywords := missing keyword_analysis;
          suggestions := suggestions;
          formatting_issues := formatting_issues;
          keyword_analysis := keyword_analysis |}.

Definition analyze_resume_data (resume_data job_description : pyval)
  : response AnalysisReport :=
  try_except (analysis resume_data job_description).

(** [analyze_resume]: [to_dict] is the outcome of [resume.to_dict()]. *)
Definition analyze_resume (to_dict : result pyval) (job_description : pyval)
  : response AnalysisReport :=
  match to_dict with
  | Ok resume_data => analyze_resume_data resume_data job_description
  | Raise e => Failure e
  end.

End Aggregator.

(** The keys of the dictionary returned by [analyze_resume_data]. *)
Definition response_keys (r : response AnalysisReport) : list string :=
  match r with
  | Success _ => [ "success"; "overall_score"; "section_scores"; "keywords";
                   "missing_keywords"; "suggestions"; "formatting_issues";
                   "keyword_analysis" ]
  | Failure _ => [ "success"; "error" ]
  end.

(** ** Sample inputs *)

Definition launch_summary : string :=
  "Experienced engineer led three major product launches, increasing revenue 30%.".

Definition sample_resume : pyval :=
  PDict [ ("full_name", PStr "Jane Doe"); ("email", PStr "a@b.com");
          ("phone", PStr "555-1234"); ("city", PStr "NYC");
          ("summary", PStr launch_summary);
          ("experiences",
            PList [ PDict [("description", PStr "Developed python services, 3 years")];
                    PDict [("company", PStr "Acme")] ]);
          ("education", PList [ PDict [("degree", PStr "BSc"); ("description", PStr "docker")] ]);
          ("skills", PList [ PDict [("name", PStr "SQL"); ("level", PStr "expert")] ]) ].

Definition sample_job : pyval :=
  PStr "We need Python, SQL and Docker; leadership a plus".

(** ** Vocabulary of the statements *)

(** 100.0 and 0.0 *)
Definition hundred : spec_float := binary_normalize 53 1024 100 0 false.
Definition zero : spec_float := S754_zero false.

(** The float [f] is within [2^-40] of the fraction [p / q], for [q > 0]. *)
Definition float_near (f : spec_float) (p q : Z) : bool :=
  match f with
  | S754_zero _ => Z.abs p * 2 ^ 40 <=? q
  | S754_finite sign m e =>
      let v := if sign then Zneg m else Zpos m in
      if 0 <=? e
      then Z.abs (v * 2 ^ e * q - p) * 2 ^ 40 <=? q
      else Z.abs (v * q - p * 2 ^ (- e)) * 2 ^ 40 <=? q * 2 ^ (- e)
  | _ => false
  end.

(** [a / b * 100] as the matcher computes it, for two counts. *)
Definition percentage (a b : nat) : spec_float :=
  times_100 (fdiv (float_of_int (Z.of_nat a)) (float_of_int (Z.of_nat b))).

(** For every [a <= b] with [1 <= b <= 45]: the division returns, and the
    percentage lies between 0.0 and 100.0, within [2^-40] of [100 a / b],
    and is 100.0 when [a = b]. *)
Definition percentages_checked : bool :=
  forallb (fun b =>
    forallb (fun a =>
      match py_truediv (Z.of_nat a) (Z.of_nat b) with
      | Ok q =>
          fleb zero (times_100 q) && fleb (times_100 q) hundred
          && float_near (times_100 q) (100 * Z.of_nat a) (Z.of_nat b)
          && (if (a =? b)%nat then SFeqb (times_100 q) hundred else true)
      | Raise _ => false
      end) (seq 0 (S b))) (seq 1 45).

Fixpoint all_chars (p : ascii -> bool) (s : string) : bool :=
  match s with
  | EmptyString => true
  | String c rest => p c && all_chars p rest
  end.

(** [s] has a whitespace character. *)
Fixpoint has_whitespace (s : string) : bool :=
  match s with
  | EmptyString => false
  | String c rest => is_space c || has_whitespace rest
  end.

(** The entries of the keyword dictionary made of two words. *)
Definition multi_word_entries : list string :=
  [ "machine learning"; "data analysis"; "project management";
    "problem solving"; "critical thinking"; "time management" ].

(** [e.get('description')] is truthy. *)
Definition described (e : pyval) : bool :=
  match e with
  | PDict items => truthy (default PNone (dict_lookup "description" items))
  | _ => false
  end.

(** The number of entries with a non-empty description. *)
Definition described_count (entries : list pyval) : Z :=
  sum_Z (map (fun e => if described e then 1 else 0) entries).

(** The experience score of [n >= 1] entries, by whether the description
    bonus and the achievement bonus apply. *)
Definition experience_score (description_bonus achievement_bonus : bool) (n : Z) : Z :=
  Z.min 100 (30 + (if 2 <=? n then 20 else 10)
                + (if description_bonus then 25 else 0)
                + (if achievement_bonus then 25 else 0)).

(** The condition of the description bonus in the words of the
    specification: at least half of the entries have a description. *)
Definition at_least_half_described (entries : list pyval) : bool :=
  Z.of_nat (length entries) <=? 2 * described_count entries.

(** Three experience entries, of which one has a description. *)
Definition one_of_three : list pyval :=
  [ PDict [("company", PStr "Acme"); ("description", PStr "Built the billing service")];
    PDict [("company", PStr "Initech"); ("description", PStr "")];
    PDict [("company", PStr "Hooli")] ].

(** A resume whose only mention of Kubernetes is in its education. *)
Definition thesis_resume : pyval :=
  PDict [ ("summary", PStr "Backend engineer.");
          ("experiences", PList [PDict [("description", PStr "Maintained build tooling")]]);
          ("education",
            PList [PDict [("degree", PStr "MSc");
                          ("description", PStr "Thesis on Kubernetes scheduling")]]);
          ("skills", PList [PDict [("name", PStr "Go")]]) ].

Definition thesis_job : pyval := PStr "Kubernetes operator wanted".

(** [[a-z]] *)
Definition is_lower (c : ascii) : bool := in_range 97 122 c.

(** A letter of a lowercased text is one of a-z. *)
Definition lowered (c : ascii) : bool := implb (is_letter c) (is_lower c).

(** [resume_data.get(key)] is truthy, for a dictionary with these items. *)
Definition present (key : string) (items : list (string * pyval)) : bool :=
  truthy (default PNone (dict_lookup key items)).

(** What is left of a pattern after reading the characters of [s]. *)
Fixpoint derivs (r : regex) (s : string) : regex :=
  match s with
  | EmptyString => r
  | String c rest => derivs (deriv c r) rest
  end.

(** What is left of the achievement pattern after a number and some
    whitespace. *)
Definition duration_rest : regex :=
  Cat (Star (Cls is_space))
      (Alt (Cat (Lit "year") (Opt (Chr "s"))) (Cat (Lit "month") (Opt (Chr "s")))).

(** [s] mentions a percentage, a dollar amount or a duration in years or
    months: a digit followed by a percent sign, a dollar sign followed by
    a digit, or a digit followed by optional whitespace and "year" or
    "month". *)
Inductive quantified : string -> Prop :=
| quantified_percent pre d post :
    is_digit d = true -> quantified (pre ++ String d (String "%" post))
| quantified_dollar pre d post :
    is_digit d = true -> quantified (pre ++ String "$" (String d post))
| quantified_years pre d ws post :
    is_digit d = true -> all_chars is_space ws = true ->
    quantified (pre ++ String d (ws ++ "year" ++ post))
| quantified_months pre d ws post :
    is_digit d = true -> all_chars is_space ws = true ->
    quantified (pre ++ String d (ws ++ "month" ++ post)).

(** [a] occurs in [s]. *)
Definition within (a s : string) : Prop := exists pre post, s = pre ++ a ++ post.

(** Some entry of the list is a dictionary that has [key] with a truthy
    value. *)
Definition some_entry_has (key : string) (entries : list pyval) : bool :=
  existsb (fun e => match e with
                    | PDict f => present key f
                    | _ => false
                    end) entries.

(** An entry whose description is a non-empty string. *)
Definition has_description (e : pyval) : Prop :=
  exists f s, e = PDict f /\ dict_lookup "description" f = Some (PStr s) /\ s <> "".

(** An entry whose description mentions a percentage, an amount or a
    duration. *)
Definition has_quantified_description (e : pyval) : Prop :=
  exists f s, e = PDict f /\ dict_lookup "description" f = Some (PStr s) /\ quantified s.

(** How deep a value nests: 1 for a leaf, one more than its deepest item
    for a container. *)
Fixpoint nesting (v : pyval) : nat :=
  match v with
  | PList l => S (list_max (map nesting l))
  | PDict items => S (list_max (map (fun kv => nesting (snd kv)) items))
  | _ => 1
  end.

(** No integer of the value has more digits than the limit. *)
Fixpoint digits_within (max_digits : Z) (v : pyval) : bool :=
  match v with
  | PInt n =>
      negb ((0 <? max_digits)
            && (max_digits <? Z.of_nat (String.length (pretty (Z.abs n)))))
  | PList l => forallb (digits_within max_digits) l
  | PDict items => forallb (fun kv => digits_within max_digits (snd kv)) items
  | _ => true
  end.

(** Data [str()] can print under the limits: nested no deeper than the
    calls left, with integers within the digit limit. *)
Definition printable_under (lim : limits) (v : pyval) : bool :=
  (nesting v <=? call_depth lim)%nat && digits_within (max_str_digits lim) v.

(** The shape of resume data the scorer reads without an error. *)

Definition string_or_absent (key : string) (items : list (string * pyval)) : bool :=
  match dict_lookup key items with
  | None | Some (PStr _) => true
  | Some _ => false
  end.

Definition is_dict (e : pyval) : bool :=
  match e with
  | PDict _ => true
  | _ => false
  end.

(** A dictionary whose [field], when present, is a string. *)
Definition entry_with_string (field : string) (e : pyval) : bool :=
  match e with
  | PDict f => string_or_absent field f
  | _ => false
  end.

(** [key] holds a list whose entries all satisfy [ok]. *)
Definition entries_ok (key : string) (ok : pyval -> bool)
    (items : list (string * pyval)) : bool :=
  match dict_lookup key items with
  | Some (PList entries) => forallb ok entries
  | _ => false
  end.

(** A dictionary with the three entry lists; the summary, the
    descriptions of the experiences and the names of the skills are
    strings where present; ['content'], where present, is a dictionary
    whose summary is a string if it has one. *)
Definition well_shaped (resume_data : pyval) : bool :=
  match resume_data with
  | PDict items =>
      string_or_absent "summary" items
      && match dict_lookup "content" items with
         | None => true
         | Some (PDict content) => string_or_absent "summary" content
         | Some _ => false
         end
      && entries_ok "experiences" (entry_with_string "description") items
      && entries_ok "education" is_dict items
      && entries_ok "skills" (entry_with_string "name") items
  | _ => false
  end.

(** A resume that reaches the highest overall score. *)
Definition full_resume : pyval :=
  let skill := PDict [("name", PStr "Python"); ("category", PStr "technical");
                      ("level", PStr "expert")] in
  PDict [ ("full_name", PStr "Jane Doe"); ("email", PStr "a@b.com");
          ("phone", PStr "555-1234"); ("country", PStr "US");
          ("summary", PStr ("Engineer who led platform teams and developed data services "
                            ++ "for large retail customers across three continents."));
          ("experiences",
            PList [ PDict [("description", PStr "Cut build time by 40%")];
                    PDict [("description", PStr "Ran the on-call rota")] ]);
          ("education", PList [ PDict [("degree", PStr "BSc"); ("institution", PStr "MIT")] ]);
          ("skills", PList (replicate 10 skill)) ].

(** * Properties *)

(** ** Reasoning about [result] *)

Lemma bind_Ok {A B : Type} (m : result A) (f : A -> result B) (b : B) :
  m ≫= f = Ok b -> exists a, m = Ok a /\ f a = Ok b.
Proof. destruct m as [a|e]; simpl; [eauto | discriminate]. Qed.

Lemma bind_Raise {A B : Type} (m : result A) (f : A -> result B) (e : exn) :
  m ≫= f = Raise e -> m = Raise e \/ exists a, m = Ok a /\ f a = Raise e.
Proof. destruct m as [a|e']; simpl; [eauto | intros [= ->]; eauto]. Qed.

Lemma try_except_Success {A : Type} (body : result A) (a : A) :
  try_except body = Success a <-> body = Ok a.
Proof. destruct body; simpl; split; congruence. Qed.

(** Peel the successful steps off a hypothesis [x ← m; k = Ok b]. *)
Ltac inv_bind H :=
  repeat match type of H with
  | mbind _ _ = Ok _ =>
      let a := fresh "a" in
      let E := fresh "E" in
      apply bind_Ok in H as (a & E & H)
  | mret _ = Ok _ => injection H as H
  | Ok _ = Ok _ => injection H as H
  end.

(** ** Bounds of the section scores *)

Lemma _check_contact_info_range rd s :
  _check_contact_info rd = Ok s -> 0 <= s <= 100.
Proof.
  unfold _check_contact_info. intros H. inv_bind H.
  subst s. repeat case_match; lia.
Qed.

Lemma _check_summary_range rd s :
  _check_summary rd = Ok s -> 0 <= s <= 100.
Proof.
  unfold _check_summary. intros H. inv_bind H.
  destruct (negb (truthy a)); inv_bind H; subst s; lia.
Qed.

Lemma _check_experience_range rd s :
  _check_experience rd = Ok s -> 0 <= s <= 100.
Proof.
  unfold _check_experience. intros H. inv_bind H.
  destruct (negb (truthy a)); inv_bind H; subst s; [lia|].
  repeat case_match; lia.
Qed.

Lemma _check_education_range rd s :
  _check_education rd = Ok s -> 0 <= s <= 100.
Proof.
  unfold _check_education. intros H. inv_bind H.
  destruct (negb (truthy a)); inv_bind H; subst s; [lia|].
  repeat case_match; lia.
Qed.

Lemma _check_skills_range rd s :
  _check_skills rd = Ok s -> 0 <= s <= 100.
Proof.
  unfold _check_skills. intros H. inv_bind H.
  destruct (negb (truthy a)); inv_bind H; subst s; [lia|].
  repeat case_match; lia.
Qed.

Lemma _check_formatting_range lim rd s :
  _check_formatting lim rd = Ok s -> 0 <= s <= 100.
Proof.
  unfold _check_formatting. intros H. inv_bind H. subst s. lia.
Qed.

(** What a successful run of the aggregator did, step by step. *)
Lemma analysis_Ok los lim rd jd r :
  analysis los lim rd jd = Ok r ->
  exists c s x e k f ka sug,
    _check_contact_info rd = Ok c /\ _check_summary rd = Ok s /\
    _check_experience rd = Ok x /\ _check_education rd = Ok e /\
    _check_skills rd = Ok k /\ _check_formatting lim rd = Ok f /\
    _analyze_keywords los rd jd = Ok ka /\
    _generate_suggestions (section_scores r) ka = Ok sug /\
    section_scores r = [ ("contact_info", c); ("summary", s); ("experience", x);
                         ("education", e); ("skills", k); ("formatting", f) ] /\
    overall_score r = (c + (s + (x + (e + (k + (f + 0)))))) / 6 /\
    keyword_analysis r = ka /\ suggestions r = sug /\
    keywords_found r = matched ka /\ missing_keywords r = missing ka.
Proof.
  unfold analysis. intros H. inv_bind H.
  unfold py_floordiv in E5. simpl in E5. injection E5 as E5.
  subst r a5. simpl. exists a, a0, a1, a2, a3, a4, a6, a7.
  repeat split; assumption || reflexivity.
Qed.

(** The sample resume is analysed without an error; its report is the
    first component. *)
Lemma sample_analysis :
  { r | analyze_resume_data elements default_limits sample_resume sample_job = Success r }.
Proof. eexists. vm_compute. reflexivity. Defined.

(** ** Aggregator *)

(** C1: whenever [analyze_resume_data] returns a report, the report has six
    section scores and its [overall_score] is the floor of their sum
    divided by 6. *)
Theorem overall_score_floor_mean los lim rd jd r :
  analyze_resume_data los lim rd jd = Success r ->
  length (section_scores r) = 6%nat /\
  overall_score r = sum_Z (map snd (section_scores r)) / 6.
Proof.
  intros H. apply try_except_Success, analysis_Ok in H.
  destruct H as (c & s & x & e & k & f & ka & sug & H).
  destruct H as (_ & _ & _ & _ & _ & _ & _ & _ & Hs & Ho & _).
  rewrite Hs, Ho. split; reflexivity.
Qed.

Lemma overall_score_floor_mean_witness :
  let r := proj1_sig sample_analysis in
  overall_score r = 79 /\
  length (section_scores r) = 6%nat /\
  overall_score r = sum_Z (map snd (section_scores r)) / 6.
Proof.
  split; [reflexivity|].
  exact (overall_score_floor_mean elements default_limits sample_resume sample_job _
           (proj2_sig sample_analysis)).
Defined.

(** C5: the [section_scores] of a report have exactly the keys
    contact_info, summary, experience, education, skills and formatting,
    and every value is an integer between 0 and 100. *)
Theorem section_scores_keys_and_range los lim rd jd r :
  analyze_resume_data los lim rd jd = Success r ->
  map fst (section_scores r) =
    ["contact_info"; "summary"; "experience"; "education"; "skills"; "formatting"] /\
  Forall (fun kv => 0 <= snd kv <= 100) (section_scores r).
Proof.
  intros H. apply try_except_Success, analysis_Ok in H.
  destruct H as (c & s & x & e & k & f & ka & sug & H).
  destruct H as (Hc & Hs & Hx & He & Hk & Hf & _ & _ & Hscores & _).
  rewrite Hscores. split; [reflexivity|].
  apply _check_contact_info_range in Hc. apply _check_summary_range in Hs.
  apply _check_experience_range in Hx. apply _check_education_range in He.
  apply _check_skills_range in Hk. apply _check_formatting_range in Hf.
  repeat constructor; simpl; lia.
Qed.

Lemma section_scores_keys_and_range_witness :
  let r := proj1_sig sample_analysis in
  section_scores r =
    [ ("contact_info", 100); ("summary", 50); ("experience", 100);
      ("education", 70); ("skills", 55); ("formatting", 100) ] /\
  map fst (section_scores r) =
    ["contact_info"; "summary"; "experience"; "education"; "skills"; "formatting"] /\
  Forall (fun kv => 0 <= snd kv <= 100) (section_scores r).
Proof.
  split; [reflexivity|].
  exact (section_scores_keys_and_range elements default_limits sample_resume sample_job _
           (proj2_sig sample_analysis)).
Defined.

(** ** Error handling *)

Example analyze_list_fails los lim jd :
  analyze_resume_data los lim (PList []) jd = Failure (AttributeError "list" "get").
Proof. reflexivity. Qed.

Example analyze_numeric_summary_fails los lim jd :
  analyze_resume_data los lim (PDict [("summary", PInt 7)]) jd = Failure (TypeError_len "int").
Proof. reflexivity. Qed.

Example analyze_null_description_fails los lim jd :
  analyze_resume_data los lim
    (PDict [("experiences", PList [PDict [("description", PNone)]])]) jd
  = Failure (TypeError_re "NoneType").
Proof. reflexivity. Qed.

(** C10: [analyze_resume_data] returns a dictionary for every input, of
    whatever shape: the report with ['success': True] when the body of
    its [try] completes, and ['success': False] with the error when the
    body raises.  Either way the dictionary has the key ['success'];
    [analyze_resume] behaves the same around [to_dict]. *)
Theorem analyze_resume_data_never_raises los lim rd jd :
  "success" ∈ response_keys (analyze_resume_data los lim rd jd) /\
  ((exists r, analysis los lim rd jd = Ok r /\
              analyze_resume_data los lim rd jd = Success r /\
              success (analyze_resume_data los lim rd jd) = true) \/
   (exists e, analysis los lim rd jd = Raise e /\
              analyze_resume_data los lim rd jd = Failure e /\
              success (analyze_resume_data los lim rd jd) = false)) /\
  (forall to_dict, "success" ∈ response_keys (analyze_resume los lim to_dict jd)).
Proof.
  unfold analyze_resume, analyze_resume_data, try_except.
  split; [|split].
  - destruct (analysis los lim rd jd); simpl; set_solver.
  - destruct (analysis los lim rd jd) as [r|e]; simpl; [left | right]; eauto.
  - intros [rd'|e]; [destruct (analysis los lim rd' jd)|]; simpl; set_solver.
Qed.

Example analyze_deep_nesting_fails los jd :
  analyze_resume_data los {| call_depth := 3; max_str_digits := 4300 |}
    (PDict [("notes", PList [PList [PList []]])]) jd
  = Failure RecursionError.
Proof. reflexivity. Qed.

Example analyze_long_integer_fails los jd :
  analyze_resume_data los default_limits (PDict [("id", PInt (10 ^ 4300))]) jd
  = Failure ValueError_digits.
Proof. vm_compute. reflexivity. Qed.

(** ** Summary score *)

(** C8: a resume whose summary is "Experienced engineer led three major
    product launches, increasing revenue 30%." has summary score 50: the
    summary is non-empty (base 30), shorter than 100 characters (no
    length bonus), contains the action verb "led" (+20) and ends with a
    period (nothing deducted). *)
Theorem launch_summary_scores_50 items :
  dict_lookup "summary" items = Some (PStr launch_summary) ->
  Z.of_nat (String.length launch_summary) < 100 /\
  existsb (fun kw => is_substring kw (lower launch_summary)) (take 5 action_verbs) = true /\
  is_substring "led" (lower launch_summary) = true /\
  endswith launch_summary "." = true /\
  _check_summary (PDict items) = Ok 50.
Proof.
  intros H. repeat split; try (vm_compute; reflexivity).
  unfold _check_summary, py_get. rewrite H. vm_compute. reflexivity.
Qed.

Lemma launch_summary_scores_50_witness :
  dict_lookup "summary" [("summary", PStr launch_summary)] = Some (PStr launch_summary) /\
  _check_summary (PDict [("summary", PStr launch_summary)]) = Ok 50.
Proof.
  split; [reflexivity|].
  apply (launch_summary_scores_50 [("summary", PStr launch_summary)]). reflexivity.
Defined.

(** ** Suggestion generator *)

(** C4: for scores that have the four keys the rules read, the suggestions
    are the outcomes of rules 1 to 5 of §4.3 in that order, each record
    present exactly when its condition holds and never dropped afterwards,
    followed by the low-priority action-verbs suggestion and the
    medium-priority quantify-achievements suggestion; so the list is a
    function of the scores and the keyword analysis and has at least two
    elements.  The records are written out field by field. *)
Theorem suggestions_in_rule_order scores ka c s x k :
  py_index scores "contact_info" = Ok c ->
  py_index scores "summary" = Ok s ->
  py_index scores "experience" = Ok x ->
  py_index scores "skills" = Ok k ->
  let rule1 := {| sug_type := "contact_info";
                  sug_message := "Add missing contact information";
                  sug_priority := "high" |} in
  let rule2 := {| sug_type := "summary";
                  sug_message := "Add or improve your professional summary";
                  sug_priority := "high" |} in
  let rule3 := {| sug_type := "experience";
                  sug_message := "Add more work experience with descriptions";
                  sug_priority := "high" |} in
  let rule4 := {| sug_type := "skills";
                  sug_message := "Add more skills with proficiency levels";
                  sug_priority := "medium" |} in
  let rule5 := {| sug_type := "keywords";
                  sug_message := "Consider adding these keywords: "
                                 ++ join ", " (take 5 (missing ka));
                  sug_priority := "medium" |} in
  let rule6 := {| sug_type := "content";
                  sug_message := "Use strong action verbs like "
                                 ++ String "034" ("achieved" ++ String "034" (", "
                                 ++ String "034" ("led" ++ String "034" (", "
                                 ++ String "034" ("developed" ++ String "034" "")))));
                  sug_priority := "low" |} in
  let rule7 := {| sug_type := "content";
                  sug_message := "Quantify achievements with numbers and percentages";
                  sug_priority := "medium" |} in
  let triggered :=
    ((if c <? 75 then [rule1] else []) ++
     (if s <? 50 then [rule2] else []) ++
     (if x <? 50 then [rule3] else []) ++
     (if k <? 50 then [rule4] else []) ++
     (match missing ka with
      | [] => []
      | _ => [rule5]
      end))%list in
  exists result,
    _generate_suggestions scores ka = Ok result /\
    result = (triggered ++ [rule6; rule7])%list /\
    (c < 75 -> rule1 ∈ result) /\
    (s < 50 -> rule2 ∈ result) /\
    (x < 50 -> rule3 ∈ result) /\
    (k < 50 -> rule4 ∈ result) /\
    (missing ka <> [] -> rule5 ∈ result) /\
    (2 <= length result)%nat.
Proof.
  intros Hc Hs Hx Hk rule1 rule2 rule3 rule4 rule5 rule6 rule7 triggered.
  assert (Hrun : _generate_suggestions scores ka
                 = Ok (triggered ++ [rule6; rule7])%list).
  { unfold _generate_suggestions. rewrite Hc, Hs, Hx, Hk. simpl.
    subst triggered.
    destruct (c <? 75), (s <? 50), (x <? 50), (k <? 50), (missing ka); reflexivity. }
  exists (triggered ++ [rule6; rule7])%list.
  split; [exact Hrun|]. split; [reflexivity|].
  subst triggered. repeat split.
  - intros H. apply Z.ltb_lt in H. rewrite H.
    apply elem_of_app. left. apply list_elem_of_here.
  - intros H. apply Z.ltb_lt in H. rewrite H.
    apply elem_of_app. left. apply elem_of_app. right. apply list_elem_of_here.
  - intros H. apply Z.ltb_lt in H. rewrite H.
    apply elem_of_app. left. do 2 (apply elem_of_app; right). apply list_elem_of_here.
  - intros H. apply Z.ltb_lt in H. rewrite H.
    apply elem_of_app. left. do 3 (apply elem_of_app; right). apply list_elem_of_here.
  - intros H. destruct (missing ka) as [|w rest]; [contradiction|].
    apply elem_of_app. left. do 4 (apply elem_of_app; right). apply list_elem_of_here.
  - rewrite !length_app. simpl. lia.
Qed.

Lemma suggestions_in_rule_order_witness :
  _generate_suggestions
    [ ("contact_info", 50); ("summary", 50); ("experience", 0);
      ("education", 70); ("skills", 30); ("formatting", 100) ]
    {| matched := []; missing := ["docker"; "sql"; "aws"; "git"; "java"; "css"];
       match_rate := Float (S754_zero false);
       total_matched := 0; total_missing := 6 |}
  = Ok [ {| sug_type := "contact_info";
            sug_message := "Add missing contact information";
            sug_priority := "high" |};
         {| sug_type := "experience";
            sug_message := "Add more work experience with descriptions";
            sug_priority := "high" |};
         {| sug_type := "skills";
            sug_message := "Add more skills with proficiency levels";
            sug_priority := "medium" |};
         {| sug_type := "keywords";
            sug_message := "Consider adding these keywords: docker, sql, aws, git, java";
            sug_priority := "medium" |};
         {| sug_type := "content";
            sug_message := "Use strong action verbs like "
                           ++ String "034" ("achieved" ++ String "034" (", "
                           ++ String "034" ("led" ++ String "034" (", "
                           ++ String "034" ("developed" ++ String "034" "")))));
            sug_priority := "low" |};
         {| sug_type := "content";
            sug_message := "Quantify achievements with numbers and percentages";
            sug_priority := "medium" |} ].
Proof.
  destruct (suggestions_in_rule_order
              [ ("contact_info", 50); ("summary", 50); ("experience", 0);
                ("education", 70); ("skills", 30); ("formatting", 100) ]
              {| matched := []; missing := ["docker"; "sql"; "aws"; "git"; "java"; "css"];
                 match_rate := Float (S754_zero false);
                 total_matched := 0; total_missing := 6 |}
              50 50 0 30 eq_refl eq_refl eq_refl eq_refl)
    as (result & Hrun & Hresult & _).
  rewrite Hrun, Hresult. reflexivity.
Defined.

(** ** Tokenization *)

Lemma letter_not_space c : is_letter c = true -> is_space c = false.
Proof.
  destruct c as [[] [] [] [] [] [] [] []]; vm_compute; congruence.
Qed.

Lemma all_letters_no_whitespace s :
  all_chars is_letter s = true -> has_whitespace s = false.
Proof.
  induction s as [|c s IH]; simpl; [reflexivity|].
  intros [Hc Hs]%andb_prop. rewrite (letter_not_space c Hc). simpl. auto.
Qed.

Lemma substring_all_chars p s : forall n m,
  all_chars p s = true -> all_chars p (String.substring n m s) = true.
Proof.
  induction s as [|c s IH]; intros n m H.
  - destruct n, m; reflexivity.
  - simpl in H. apply andb_prop in H as [Hc Hs].
    destruct n as [|n]; simpl.
    + destruct m as [|m]; simpl; [reflexivity|]. rewrite Hc. simpl. auto.
    + auto.
Qed.

Lemma span_letters_all s run after :
  span_letters s = (run, after) -> all_chars is_letter run = true.
Proof.
  revert run after. induction s as [|c s IH]; simpl; intros run after H.
  - injection H as <- _. reflexivity.
  - destruct (is_letter c) eqn:Hc.
    + destruct (span_letters s) as [run' after'] eqn:E.
      injection H as <- _. simpl. rewrite Hc. simpl. eauto.
    + injection H as <- _. reflexivity.
Qed.

Lemma backtrack_all n run after w :
  all_chars is_letter run = true ->
  backtrack n run after = Some w -> all_chars is_letter w = true.
Proof.
  intros Hrun. induction n as [|n IH]; simpl; [discriminate|].
  destruct (_ && _).
  - intros [= <-]. apply (substring_all_chars is_letter run 0 (S n) Hrun).
  - exact IH.
Qed.

Lemma match_word_all prev s w :
  match_word prev s = Some w -> all_chars is_letter w = true.
Proof.
  unfold match_word. destruct (at_boundary _ _); [|discriminate].
  destruct (span_letters s) as [run after] eqn:E.
  apply backtrack_all. eapply span_letters_all, E.
Qed.

Lemma findall_from_all s : forall prev skip,
  Forall (fun w => all_chars is_letter w = true) (findall_from prev skip s).
Proof.
  induction s as [|c s IH]; intros prev skip; simpl; [constructor|].
  destruct skip as [|k]; [|apply IH].
  destruct (match_word prev (String c s)) as [w|] eqn:E; [|apply IH].
  constructor; [eapply match_word_all, E | apply IH].
Qed.

(** Every word of a job description is made of letters only. *)
Lemma job_words_letters jd jw w :
  job_words_of jd = Ok jw -> w ∈ jw -> all_chars is_letter w = true.
Proof.
  unfold job_words_of. destruct (truthy jd).
  - intros H. inv_bind H. subst jw. rewrite elem_of_list_to_set.
    intros Hw. pose proof (findall_from_all a None 0) as Hall.
    rewrite Forall_forall in Hall. apply Hall, Hw.
  - intros [= <-]. set_solver.
Qed.

(** ** Keyword matcher *)

Lemma py_get_no_zde o k d : py_get o k d <> Raise ZeroDivisionError.
Proof. destruct o; discriminate. Qed.

Lemma py_iter_no_zde v : py_iter v <> Raise ZeroDivisionError.
Proof. destruct v; discriminate. Qed.

Lemma py_lower_no_zde v : py_lower v <> Raise ZeroDivisionError.
Proof. destruct v; discriminate. Qed.

Lemma bind_no_zde {A B : Type} (m : result A) (f : A -> result B) :
  m <> Raise ZeroDivisionError ->
  (forall a, m = Ok a -> f a <> Raise ZeroDivisionError) ->
  m ≫= f <> Raise ZeroDivisionError.
Proof. destruct m as [a|e]; simpl; [auto | congruence]. Qed.

Lemma fields_of_no_zde key entries : fields_of key entries <> Raise ZeroDivisionError.
Proof.
  induction entries as [|e rest IH]; simpl; [discriminate|].
  apply bind_no_zde; [apply py_get_no_zde|]. intros v _.
  apply bind_no_zde; [exact IH | discriminate].
Qed.

Lemma str_items_no_zde items : forall i, str_items i items <> Raise ZeroDivisionError.
Proof.
  induction items as [|v rest IH]; intros i; simpl; [discriminate|].
  destruct v; try discriminate.
  apply bind_no_zde; [apply IH | discriminate].
Qed.

Lemma py_join_no_zde sep items : py_join sep items <> Raise ZeroDivisionError.
Proof.
  unfold py_join. apply bind_no_zde; [apply str_items_no_zde | discriminate].
Qed.

Lemma joined_fields_no_zde rd key field :
  joined_fields rd key field <> Raise ZeroDivisionError.
Proof.
  unfold joined_fields.
  apply bind_no_zde; [apply py_get_no_zde|]. intros section _.
  apply bind_no_zde; [apply py_iter_no_zde|]. intros entries _.
  apply bind_no_zde; [apply fields_of_no_zde|]. intros values _.
  apply py_join_no_zde.
Qed.

Lemma analyzed_text_no_zde rd : analyzed_text rd <> Raise ZeroDivisionError.
Proof.
  unfold analyzed_text, content_summary.
  apply bind_no_zde; [apply py_get_no_zde|]. intros summary _.
  apply bind_no_zde.
  { apply bind_no_zde; [apply py_get_no_zde|]. intros; apply py_get_no_zde. }
  intros inner _.
  apply bind_no_zde; [apply joined_fields_no_zde|]. intros descriptions _.
  apply bind_no_zde; [apply joined_fields_no_zde|]. intros names _.
  apply py_join_no_zde.
Qed.

Lemma job_words_of_no_zde jd : job_words_of jd <> Raise ZeroDivisionError.
Proof.
  unfold job_words_of. destruct (truthy jd); [|discriminate].
  apply bind_no_zde; [apply py_lower_no_zde | discriminate].
Qed.

Section Matcher.

Variable list_of_set : gset string -> list string.
Hypothesis list_of_set_perm : forall s, list_of_set s ≡ₚ elements s.

Lemma elem_of_list_of_set (w : string) (s : gset string) :
  w ∈ list_of_set s <-> w ∈ s.
Proof. rewrite (list_of_set_perm s). apply elem_of_elements. Qed.

Lemma length_list_of_set (s : gset string) : length (list_of_set s) = size s.
Proof. rewrite (list_of_set_perm s). reflexivity. Qed.

(** What a successful run of the matcher computed. *)
Lemma _analyze_keywords_Ok rd jd ka :
  _analyze_keywords list_of_set rd jd = Ok ka ->
  exists text jw,
    analyzed_text rd = Ok text /\ job_words_of jd = Ok jw /\
    matched ka = list_of_set (word_set text ∩ jw ∩ all_keywords) /\
    missing ka = list_of_set ((jw ∖ word_set text) ∩ all_keywords) /\
    (jw ∩ all_keywords = ∅ -> match_rate ka = Int 0) /\
    (jw ∩ all_keywords <> ∅ ->
       match_rate ka =
         Float (percentage (length (matched ka)) (size (jw ∩ all_keywords)))).
Proof.
  unfold _analyze_keywords. intros H. inv_bind H.
  exists a, a0. subst ka. simpl. repeat split; try assumption.
  - intros Hempty. destruct (decide _) as [_|Hne]; [|contradiction].
    inv_bind E1. congruence.
  - intros Hne. destruct (decide _) as [He|_]; [contradiction|].
    inv_bind E1. unfold py_truediv in E2.
    destruct (_ =? 0); [discriminate|]. subst a1. unfold percentage.
    destruct (fdiv _ _); try discriminate; injection E2 as <-; reflexivity.
Qed.

(** 1 / 3 * 100 is 33.33333333333333 and 11 / 20 * 100 is
    55.00000000000001, not 55.0. *)
Example percentage_one_third :
  percentage 1 3 = S754_finite false 4691249611844266 (-47).
Proof. vm_compute. reflexivity. Qed.

Example percentage_eleven_twentieths :
  percentage 11 20 = S754_finite false 7740561859543041 (-47) /\
  percentage 11 20 <> binary_normalize 53 1024 55 0 false.
Proof. split; vm_compute; congruence. Qed.

Lemma size_job_keywords (jw : gset string) : (size (jw ∩ all_keywords) <= 45)%nat.
Proof.
  assert (Hall : size all_keywords = 45%nat) by (vm_compute; reflexivity).
  rewrite <- Hall. apply subseteq_size. apply intersection_subseteq_r.
Qed.

Lemma percentages_table : percentages_checked = true.
Proof. vm_compute. reflexivity. Qed.

(** What the table gives for one pair of counts. *)
Lemma percentage_checked (a b : nat) :
  (a <= b)%nat -> (1 <= b <= 45)%nat ->
  py_truediv (Z.of_nat a) (Z.of_nat b)
    = Ok (fdiv (float_of_int (Z.of_nat a)) (float_of_int (Z.of_nat b))) /\
  fleb zero (percentage a b) = true /\
  fleb (percentage a b) hundred = true /\
  float_near (percentage a b) (100 * Z.of_nat a) (Z.of_nat b) = true /\
  (a = b -> SFeqb (percentage a b) hundred = true).
Proof.
  intros Hab Hb. pose proof percentages_table as Htable.
  unfold percentages_checked in Htable.
  rewrite forallb_forall in Htable.
  assert (Hin_b : In b (seq 1 45)) by (apply in_seq; lia).
  specialize (Htable b Hin_b). rewrite forallb_forall in Htable.
  assert (Hin_a : In a (seq 0 (S b))) by (apply in_seq; lia).
  specialize (Htable a Hin_a). unfold percentage.
  unfold py_truediv in *. destruct (Z.of_nat b =? 0); [discriminate|].
  destruct (fdiv _ _) eqn:Hq; try discriminate;
    apply andb_prop in Htable as [Htable Heq];
    apply andb_prop in Htable as [Htable Hnear];
    apply andb_prop in Htable as [Hlo Hhi];
    (repeat split; try assumption);
    intros ->; rewrite Nat.eqb_refl in Heq; exact Heq.
Qed.

(** C6: the matcher never divides by zero.  When it returns, [match_rate]
    is the float [|matched| / |jobWords ∩ referenceVocabulary| * 100] of
    the code (each operation rounded to binary64) if that denominator set
    is non-empty, a value within [2^-40] of the exact percentage, and the
    integer 0 otherwise; it is 0 for the empty job description whatever
    the resume holds. *)
Theorem match_rate_guarded rd jd :
  _analyze_keywords list_of_set rd jd <> Raise ZeroDivisionError /\
  forall ka, _analyze_keywords list_of_set rd jd = Ok ka ->
    exists text jw,
      analyzed_text rd = Ok text /\ job_words_of jd = Ok jw /\
      (jw ∩ all_keywords <> ∅ ->
         size (jw ∩ all_keywords) <> 0%nat /\
         match_rate ka =
           Float (fmul (fdiv (float_of_int (Z.of_nat (size (word_set text ∩ jw ∩ all_keywords))))
                             (float_of_int (Z.of_nat (size (jw ∩ all_keywords)))))
                       (float_of_int 100)) /\
         float_near (percentage (size (word_set text ∩ jw ∩ all_keywords))
                                (size (jw ∩ all_keywords)))
                    (100 * Z.of_nat (size (word_set text ∩ jw ∩ all_keywords)))
                    (Z.of_nat (size (jw ∩ all_keywords))) = true) /\
      (jw ∩ all_keywords = ∅ -> match_rate ka = Int 0) /\
      (jd = PStr "" -> match_rate ka = Int 0).
Proof.
  split.
  - unfold _analyze_keywords.
    apply bind_no_zde; [apply analyzed_text_no_zde|]. intros text _.
    apply bind_no_zde; [apply job_words_of_no_zde|]. intros jw _.
    apply bind_no_zde; [|discriminate].
    destruct (decide _) as [|Hne]; [discriminate|].
    apply bind_no_zde; [|discriminate].
    unfold py_truediv. destruct (_ =? 0) eqn:Hz; [|destruct (fdiv _ _); discriminate].
    exfalso. apply Hne. apply Z.eqb_eq in Hz.
    assert (Hsize : size (jw ∩ all_keywords) = 0%nat) by lia.
    apply size_empty_inv, leibniz_equiv in Hsize. exact Hsize.
  - intros ka H. apply _analyze_keywords_Ok in H.
    destruct H as (text & jw & Ht & Hj & Hm & _ & Hzero & Hrate).
    exists text, jw. split; [exact Ht|]. split; [exact Hj|]. split; [|split].
    + intros Hne.
      assert (Hpos : size (jw ∩ all_keywords) <> 0%nat).
      { intros Hsize. apply size_empty_inv, leibniz_equiv in Hsize. contradiction. }
      split; [exact Hpos|]. split.
      * rewrite (Hrate Hne), Hm, length_list_of_set. reflexivity.
      * apply percentage_checked.
        -- apply subseteq_size. intros w Hw.
           apply elem_of_intersection in Hw as [Hw Hk].
           apply elem_of_intersection in Hw as [_ Hw].
           apply elem_of_intersection. split; assumption.
        -- pose proof (size_job_keywords jw). lia.
    + exact Hzero.
    + intros ->. apply Hzero. injection Hj as <-. set_solver.
Qed.

(** The missing keywords all belong to the job-description vocabulary and
    to the reference vocabulary, and none of them is a word of the text
    the matcher read. *)
Theorem missing_in_job_not_in_resume rd jd ka :
  _analyze_keywords list_of_set rd jd = Ok ka ->
  exists text jw,
    analyzed_text rd = Ok text /\ job_words_of jd = Ok jw /\
    forall w, w ∈ missing ka -> w ∈ jw ∩ all_keywords /\ w ∉ word_set text.
Proof.
  intros H. apply _analyze_keywords_Ok in H.
  destruct H as (text & jw & Ht & Hj & _ & Hm & _).
  exists text, jw. split; [exact Ht|]. split; [exact Hj|].
  intros w Hw. rewrite Hm in Hw. apply elem_of_list_of_set in Hw.
  apply elem_of_intersection in Hw as [Hdiff Hkw].
  apply elem_of_difference in Hdiff as [Hjob Hresume].
  split; [apply elem_of_intersection; split; assumption | exact Hresume].
Qed.

(** C9: every matched or missing keyword is a run of letters: it has no
    whitespace, so it is none of the two-word entries of the
    dictionary. *)
Theorem matched_missing_single_words rd jd ka :
  _analyze_keywords list_of_set rd jd = Ok ka ->
  forall w, w ∈ matched ka \/ w ∈ missing ka ->
    has_whitespace w = false /\ w ∉ multi_word_entries.
Proof.
  intros H w Hw. apply _analyze_keywords_Ok in H.
  destruct H as (text & jw & _ & Hj & Hmatched & Hmissing & _).
  assert (Hjw : w ∈ jw).
  { destruct Hw as [Hw|Hw]; [rewrite Hmatched in Hw | rewrite Hmissing in Hw];
      apply elem_of_list_of_set in Hw.
    - apply elem_of_intersection in Hw as [Hw _].
      apply elem_of_intersection in Hw as [_ Hw]. exact Hw.
    - apply elem_of_intersection in Hw as [Hw _].
      apply elem_of_difference in Hw as [Hw _]. exact Hw. }
  pose proof (job_words_letters jd jw w Hj Hjw) as Hletters.
  split; [apply all_letters_no_whitespace, Hletters|].
  intros Hin. unfold multi_word_entries in Hin.
  repeat (apply elem_of_cons in Hin as [->|Hin]; [vm_compute in Hletters; discriminate|]).
  apply elem_of_nil in Hin. exact Hin.
Qed.

End Matcher.

Lemma elements_perm (s : gset string) : elements s ≡ₚ elements s.
Proof. reflexivity. Defined.

(** The matcher on the sample resume and job description. *)
Lemma sample_keywords :
  { ka | _analyze_keywords elements sample_resume sample_job = Ok ka }.
Proof. eexists. vm_compute. reflexivity. Defined.

Lemma match_rate_guarded_witness :
  (forall s : gset string, elements s ≡ₚ elements s) /\
  _analyze_keywords elements sample_resume sample_job <> Raise ZeroDivisionError /\
  match_rate (proj1_sig sample_keywords)
  = Float (S754_finite false 7036874417766400 (-47)).
Proof.
  split; [exact elements_perm|]. split; [|reflexivity].
  apply (match_rate_guarded elements elements_perm sample_resume sample_job).
Defined.

Lemma missing_in_job_not_in_resume_witness :
  (forall s : gset string, elements s ≡ₚ elements s) /\
  missing (proj1_sig sample_keywords) = ["leadership"; "docker"] /\
  exists text jw,
    analyzed_text sample_resume = Ok text /\ job_words_of sample_job = Ok jw /\
    forall w, w ∈ missing (proj1_sig sample_keywords) ->
      w ∈ jw ∩ all_keywords /\ w ∉ word_set text.
Proof.
  split; [exact elements_perm|]. split; [reflexivity|].
  exact (missing_in_job_not_in_resume elements elements_perm sample_resume sample_job
           _ (proj2_sig sample_keywords)).
Defined.

Lemma matched_missing_single_words_witness :
  (forall s : gset string, elements s ≡ₚ elements s) /\
  matched (proj1_sig sample_keywords) = ["sql"; "python"] /\
  forall w, w ∈ matched (proj1_sig sample_keywords) \/
            w ∈ missing (proj1_sig sample_keywords) ->
    has_whitespace w = false /\ w ∉ multi_word_entries.
Proof.
  split; [exact elements_perm|]. split; [reflexivity|].
  exact (matched_missing_single_words elements elements_perm sample_resume sample_job
           _ (proj2_sig sample_keywords)).
Defined.

(** ** Experience score *)

Lemma count_with_description entries d :
  count_with "description" entries = Ok d -> d = described_count entries.
Proof.
  revert d. induction entries as [|e rest IH]; simpl; intros d H.
  - injection H as <-. reflexivity.
  - inv_bind H. subst d. unfold described_count. simpl.
    rewrite (IH _ E0). f_equal.
    destruct e; try discriminate. injection E as <-. reflexivity.
Qed.

(** C2: the code gives the +25 description bonus to entries of which fewer
    than half have a description.  Of these three entries one has a
    description, and the score still carries the bonus (30 + 20 + 25 =
    75, where the claim gives 50); a single entry with no description at
    all gets it too (30 + 10 + 25 = 65, where the claim gives 40): the
    code compares with [len(experiences) // 2], half the count rounded
    down. *)
Theorem description_bonus_below_half :
  described_count one_of_three = 1 /\
  at_least_half_described one_of_three = false /\
  achievements_found one_of_three = Ok false /\
  _check_experience (PDict [("experiences", PList one_of_three)])
    = Ok (experience_score true false 3) /\
  _check_experience (PDict [("experiences", PList one_of_three)]) = Ok 75 /\
  _check_experience (PDict [("experiences", PList one_of_three)])
    <> Ok (experience_score (at_least_half_described one_of_three) false 3) /\
  described_count [PDict [("company", PStr "Acme")]] = 0 /\
  at_least_half_described [PDict [("company", PStr "Acme")]] = false /\
  _check_experience (PDict [("experiences", PList [PDict [("company", PStr "Acme")]])])
    = Ok 65 /\
  experience_score (at_least_half_described [PDict [("company", PStr "Acme")]]) false 1
    = 40.
Proof. repeat split; vm_compute; congruence. Qed.

(** What the code computes: with no experience entries the score is 0;
    with [n >= 1] entries the +25 for descriptions is added exactly when
    the number of entries with a non-empty description is at least
    [n // 2]. *)
Lemma experience_description_bonus rd entries :
  section_entries rd "experiences" = Ok (PList entries) ->
  (entries = [] -> _check_experience rd = Ok 0) /\
  (entries <> [] ->
   forall d found,
     count_with "description" entries = Ok d ->
     achievements_found entries = Ok found ->
     d = described_count entries /\
     _check_experience rd =
       Ok (experience_score (Z.of_nat (length entries) / 2 <=? d) found
             (Z.of_nat (length entries)))).
Proof.
  intros Hsec. unfold _check_experience. rewrite Hsec. simpl. split.
  - intros ->. reflexivity.
  - intros Hne d found Hd Hfound.
    split; [exact (count_with_description entries d Hd)|].
    destruct entries as [|e rest]; [contradiction|].
    cbn [truthy negb py_iter mbind result_bind].
    rewrite Hd. cbn [mbind result_bind]. unfold py_floordiv.
    cbn [Z.eqb mbind result_bind]. rewrite Hfound. cbn [mbind result_bind mret result_ret].
    unfold experience_score. f_equal.
    assert (1 <= Z.of_nat (length (e :: rest))) by (simpl; lia).
    repeat case_match; lia.
Qed.

Lemma experience_description_bonus_witness :
  section_entries (PDict [("experiences", PList one_of_three)]) "experiences"
    = Ok (PList one_of_three) /\
  _check_experience (PDict [("experiences", PList one_of_three)]) = Ok 75.
Proof.
  split; [reflexivity|].
  destruct (experience_description_bonus
              (PDict [("experiences", PList one_of_three)]) one_of_three eq_refl)
    as [_ Hbonus].
  destruct (Hbonus ltac:(discriminate) 1 false eq_refl eq_refl) as [_ ->].
  reflexivity.
Defined.

(** ** Resume vocabulary *)

(** C3: the matcher of [analyze_resume_data] leaves the education
    descriptions out of the resume vocabulary, which [extract_keywords]
    includes: "kubernetes" appears in the education of this resume and in
    the job description, and the matcher reports it missing while
    [extract_keywords] reports it matched. *)
Theorem education_keyword_reported_missing :
  (exists text, analyzed_text thesis_resume = Ok text /\ "kubernetes" ∉ word_set text) /\
  (exists text, extracted_text thesis_resume = Ok text /\ "kubernetes" ∈ word_set text) /\
  _analyze_keywords elements thesis_resume thesis_job
    = Ok {| matched := []; missing := ["kubernetes"]; match_rate := Float zero;
            total_matched := 0; total_missing := 1 |} /\
  extract_keywords elements thesis_resume thesis_job
    = Success {| resume_keywords := ["kubernetes"]; job_keywords := ["kubernetes"];
                 matched_keywords := ["kubernetes"]; unmatched_keywords := [] |}.
Proof.
  split; [|split; [|split]].
  - eexists. split; [vm_compute; reflexivity|]. refine (proj1 (bool_decide_eq_false _) _). vm_compute. reflexivity.
  - eexists. split; [vm_compute; reflexivity|]. refine (proj1 (bool_decide_eq_true _) _). vm_compute. reflexivity.
  - vm_compute. reflexivity.
  - vm_compute. reflexivity.
Qed.

(** C7: the missing keywords are not disjoint from the resume vocabulary of
    §4.2 (summary, experience and education descriptions, skill names):
    "kubernetes" is a word of the education description of this resume,
    hence of the text [extract_keywords] builds from those fields, and
    the matcher of [analyze_resume_data] still lists it as missing.  The
    same omission as in C3. *)
Theorem missing_keyword_in_resume_education :
  section_entries thesis_resume "education"
    = Ok (PList [PDict [("degree", PStr "MSc");
                        ("description", PStr "Thesis on Kubernetes scheduling")]]) /\
  "kubernetes" ∈ word_set "Thesis on Kubernetes scheduling" /\
  (exists text, extracted_text thesis_resume = Ok text /\ "kubernetes" ∈ word_set text) /\
  (exists ka, _analyze_keywords elements thesis_resume thesis_job = Ok ka /\
              missing ka = ["kubernetes"] /\ "kubernetes" ∈ missing ka).
Proof.
  split; [reflexivity|]. split; [|split].
  - refine (proj1 (bool_decide_eq_true _) _). vm_compute. reflexivity.
  - eexists. split; [vm_compute; reflexivity|].
    refine (proj1 (bool_decide_eq_true _) _). vm_compute. reflexivity.
  - eexists. split; [vm_compute; reflexivity|]. split; [reflexivity|].
    apply list_elem_of_here.
Qed.


(** * Further properties of the scorer *)

(** ** Section checkers *)

(** X1: on a dictionary [_check_contact_info] never fails; its score is
    25 times the number of groups present among email, phone, city or
    country, and full name, hence 100 exactly when all four are. *)
Theorem contact_info_score_full items :
  let groups := Z.b2z (present "email" items) + Z.b2z (present "phone" items)
                + Z.b2z (present "city" items || present "country" items)
                + Z.b2z (present "full_name" items) in
  _check_contact_info (PDict items) = Ok (25 * groups) /\
  (25 * groups = 100 <->
     present "email" items = true /\ present "phone" items = true /\
     (present "city" items = true \/ present "country" items = true) /\
     present "full_name" items = true).
Proof.
  unfold _check_contact_info, present, py_get.
  cbn [mbind result_bind mret result_ret].
  destruct (truthy (default PNone (dict_lookup "email" items)));
  destruct (truthy (default PNone (dict_lookup "phone" items)));
  destruct (truthy (default PNone (dict_lookup "city" items)));
  destruct (truthy (default PNone (dict_lookup "country" items)));
  destruct (truthy (default PNone (dict_lookup "full_name" items)));
  cbn [mbind result_bind mret result_ret Z.b2z orb];
  (split; [reflexivity|]);
  (split; [intros H; try (exfalso; lia); auto | intros (? & ? & [?|?] & ?); try discriminate; reflexivity]).
Qed.

Lemma _check_summary_le_75 rd v : _check_summary rd = Ok v -> v <= 75.
Proof.
  unfold _check_summary. intros H. inv_bind H.
  destruct (negb (truthy a)); inv_bind H; subst v; [lia|].
  repeat case_match; lia.
Qed.

Lemma _check_education_le_90 rd v : _check_education rd = Ok v -> v <= 90.
Proof.
  unfold _check_education. intros H. inv_bind H.
  destruct (negb (truthy a)); inv_bind H; subst v; [lia|].
  repeat case_match; lia.
Qed.

(** X2: a string summary is always scored: 0 when empty, otherwise between
    20 and 75, so the clamp to [0, 100] never changes the value; 75 is
    reached exactly by a summary of 100 to 500 characters that contains
    one of the first five action verbs and ends with a period. *)
Theorem summary_score_levels items s :
  dict_lookup "summary" items = Some (PStr s) ->
  exists v, _check_summary (PDict items) = Ok v /\
    (s = "" -> v = 0) /\
    (s <> "" ->
       20 <= v <= 75 /\
       (v = 75 <->
          100 <= Z.of_nat (String.length s) <= 500 /\
          existsb (fun kw => is_substring kw (lower s)) (take 5 action_verbs) = true /\
          endswith s "." = true)).
Proof.
  intros Hs. unfold _check_summary, py_get. rewrite Hs.
  change (default (PStr "") (Some (PStr s))) with (PStr s).
  cbn [mbind result_bind truthy negb].
  destruct (String.eqb s "") eqn:He.
  - apply String.eqb_eq in He. subst s. exists 0. repeat split; congruence.
  - apply String.eqb_neq in He.
    cbn [negb py_len py_lower py_endswith mbind result_bind mret result_ret].
    eexists. split; [reflexivity|]. split; [congruence|]. intros _.
    destruct (existsb _ _), (endswith s "."); cbn [negb];
      destruct (100 <=? _) eqn:H1; destruct (_ <=? 500) eqn:H2;
      destruct (500 <? _) eqn:H3; cbn [andb];
      try apply Z.leb_le in H1; try apply Z.leb_gt in H1;
      try apply Z.leb_le in H2; try apply Z.leb_gt in H2;
      try apply Z.ltb_lt in H3; try apply Z.ltb_ge in H3;
      (split; [lia|]); (split; [intros; try lia; auto | intros (? & ? & ?); try discriminate; lia]).
Qed.

Lemma summary_score_levels_witness :
  dict_lookup "summary" [("summary", PStr launch_summary)] = Some (PStr launch_summary) /\
  exists v, _check_summary (PDict [("summary", PStr launch_summary)]) = Ok v /\ v <> 75.
Proof.
  split; [reflexivity|].
  destruct (summary_score_levels [("summary", PStr launch_summary)] launch_summary eq_refl)
    as (v & Hv & _ & Hlevels).
  exists v. split; [exact Hv|].
  destruct (Hlevels ltac:(discriminate)) as (_ & Htop).
  intros H75. apply Htop in H75 as ((Hlen & _) & _). vm_compute in Hlen. apply Hlen. reflexivity.
Defined.

Lemma map_result_errors {A B : Type} (f : A -> result B) (l : list A) (e : exn)
    (P : exn -> Prop) :
  (forall x e', In x l -> f x = Raise e' -> P e') ->
  map_result f l = Raise e -> P e.
Proof.
  induction l as [|x rest IH]; intros Hf H; [discriminate|].
  cbn [map_result] in H. destruct (f x) as [y|e'] eqn:Hx.
  - cbn [mbind result_bind] in H.
    destruct (map_result f rest) as [ys|e''] eqn:Hrest; [discriminate|].
    cbn [mbind result_bind] in H. injection H as <-.
    apply IH; [|reflexivity]. intros x' e' Hin. apply Hf. right. exact Hin.
  - cbn [mbind result_bind] in H. injection H as <-.
    apply (Hf x e'); [left; reflexivity | exact Hx].
Qed.

Lemma repr_int_errors max_digits n e :
  repr_int max_digits n = Raise e -> e = ValueError_digits.
Proof. unfold repr_int. destruct (_ && _); congruence. Qed.

Lemma py_repr_errors max_digits depth : forall v e,
  py_repr max_digits depth v = Raise e -> e = RecursionError \/ e = ValueError_digits.
Proof.
  induction depth as [|d IH]; intros v e H.
  - left. cbn in H. congruence.
  - destruct v as [| [|] | n | s | l | items]; cbn [py_repr] in H; try discriminate.
    + right. exact (repr_int_errors _ _ _ H).
    + apply bind_Raise in H as [H | (parts & _ & H)]; [|discriminate].
      apply (map_result_errors _ _ _ _ (fun x e' _ => IH x e') H).
    + apply bind_Raise in H as [H | (parts & _ & H)]; [|discriminate].
      apply (map_result_errors _ _ _ (fun e => e = RecursionError \/ e = ValueError_digits))
        in H; [exact H|].
      intros kv e' _ Hkv.
      apply bind_Raise in Hkv as [Hkv | (k & _ & Hkv)]; [exact (IH _ _ Hkv)|].
      apply bind_Raise in Hkv as [Hkv | (v & _ & Hkv)]; [exact (IH _ _ Hkv) | discriminate].
Qed.

(** [str()] fails on the recursion limit or on the digit limit only. *)
Lemma py_str_errors lim v e :
  py_str lim v = Raise e -> e = RecursionError \/ e = ValueError_digits.
Proof.
  unfold py_str. destruct v; intros H; try discriminate;
    exact (py_repr_errors _ _ _ _ H).
Qed.

(** X3: [_check_formatting] fails only where [str(resume_data)] does, on
    the recursion limit or on the digit limit of integers, and with that
    error; when the data can be printed it returns 70, 80 or 100, and 100
    whenever the lowercased text does not contain "table". *)
Theorem formatting_score_values lim rd :
  (exists e, py_str lim rd = Raise e /\ _check_formatting lim rd = Raise e /\
             (e = RecursionError \/ e = ValueError_digits)) \/
  (exists text v, py_str lim rd = Ok text /\ _check_formatting lim rd = Ok v /\
     (v = 70 \/ v = 80 \/ v = 100) /\
     (is_substring "table" (lower text) = false -> v = 100)).
Proof.
  unfold _check_formatting. destruct (py_str lim rd) as [text|e] eqn:Hstr.
  - right. cbn [mbind result_bind mret result_ret].
    eexists _, _. split; [reflexivity|]. split; [reflexivity|].
    destruct (is_substring "table" _), (existsb _ _); cbn; split; auto; discriminate.
  - left. exists e. repeat split. exact (py_str_errors lim rd e Hstr).
Qed.

(** X4: no report has an overall score above 94: the summary score stops
    at 75 and the education score at 90. *)
Theorem overall_score_at_most_94 los lim rd jd r :
  analyze_resume_data los lim rd jd = Success r -> overall_score r <= 94.
Proof.
  intros H. apply try_except_Success, analysis_Ok in H.
  destruct H as (c & s & x & e & k & f & ka & sug & H).
  destruct H as (Hc & Hs & Hx & He & Hk & Hf & _ & _ & _ & Ho & _).
  apply _check_contact_info_range in Hc. apply _check_summary_le_75 in Hs.
  apply _check_experience_range in Hx. apply _check_education_le_90 in He.
  apply _check_skills_range in Hk. apply _check_formatting_range in Hf.
  rewrite Ho.
  assert ((c + (s + (x + (e + (k + (f + 0)))))) / 6 < 95)
    by (apply Z.div_lt_upper_bound; lia).
  lia.
Qed.

Lemma full_analysis :
  { r | analyze_resume_data elements default_limits full_resume (PStr "") = Success r }.
Proof. eexists. vm_compute. reflexivity. Defined.

Lemma overall_score_at_most_94_witness :
  overall_score (proj1_sig full_analysis) = 94 /\
  overall_score (proj1_sig full_analysis) <= 94.
Proof.
  split; [reflexivity|].
  exact (overall_score_at_most_94 elements default_limits full_resume (PStr "") _
           (proj2_sig full_analysis)).
Defined.

(** ** Keyword analysis *)

Section Analysis.

Variable list_of_set : gset string -> list string.
Hypothesis list_of_set_perm : forall s, list_of_set s ≡ₚ elements s.

Lemma NoDup_list_of_set (s : gset string) : NoDup (list_of_set s).
Proof. rewrite (list_of_set_perm s). apply NoDup_elements. Qed.

Lemma _analyze_keywords_totals rd jd ka :
  _analyze_keywords list_of_set rd jd = Ok ka ->
  total_matched ka = Z.of_nat (length (matched ka)) /\
  total_missing ka = Z.of_nat (length (missing ka)).
Proof.
  unfold _analyze_keywords. intros H. inv_bind H. subst ka. split; reflexivity.
Qed.

(** X5: the matched and the missing keywords split the job keywords (the
    words of the job description that are in the dictionary) in two: each
    job keyword is in exactly one of the two lists, neither list repeats
    a word, and [total_matched + total_missing] is the number of job
    keywords. *)
Theorem matched_missing_partition rd jd ka :
  _analyze_keywords list_of_set rd jd = Ok ka ->
  exists jw, job_words_of jd = Ok jw /\
    (forall w, w ∈ jw ∩ all_keywords <-> w ∈ matched ka \/ w ∈ missing ka) /\
    (forall w, w ∈ matched ka -> w ∉ missing ka) /\
    NoDup (matched ka) /\ NoDup (missing ka) /\
    total_matched ka + total_missing ka = Z.of_nat (size (jw ∩ all_keywords)).
Proof.
  intros H. destruct (_analyze_keywords_totals rd jd ka H) as [Htm Hts].
  apply (_analyze_keywords_Ok list_of_set) in H.
  destruct H as (text & jw & _ & Hj & Hm & Hs & _).
  exists jw. split; [exact Hj|].
  assert (Hdisj : word_set text ∩ jw ∩ all_keywords ## (jw ∖ word_set text) ∩ all_keywords).
  { intros w Hw1 Hw2.
    apply elem_of_intersection in Hw1 as [Hw1 _].
    apply elem_of_intersection in Hw1 as [Hw1 _].
    apply elem_of_intersection in Hw2 as [Hw2 _].
    apply elem_of_difference in Hw2 as [_ Hw2]. contradiction. }
  assert (Hunion : (word_set text ∩ jw ∩ all_keywords) ∪ ((jw ∖ word_set text) ∩ all_keywords)
                   = jw ∩ all_keywords).
  { apply leibniz_equiv. intros w. rewrite elem_of_union, !elem_of_intersection,
      elem_of_difference.
    destruct (decide (w ∈ word_set text)); tauto. }
  split; [|split; [|split; [|split]]].
  - intros w. rewrite Hm, Hs, <- Hunion, elem_of_union. split.
    + intros [Hw|Hw]; [left|right];
        apply (elem_of_list_of_set list_of_set list_of_set_perm); exact Hw.
    + intros [Hw|Hw]; [left|right];
        apply (elem_of_list_of_set list_of_set list_of_set_perm) in Hw; exact Hw.
  - intros w. rewrite Hm, Hs. intros Hw1 Hw2.
    apply (elem_of_list_of_set list_of_set list_of_set_perm) in Hw1.
    apply (elem_of_list_of_set list_of_set list_of_set_perm) in Hw2.
    exact (Hdisj w Hw1 Hw2).
  - rewrite Hm. apply NoDup_list_of_set.
  - rewrite Hs. apply NoDup_list_of_set.
  - rewrite Htm, Hts, Hm, Hs, !(length_list_of_set list_of_set list_of_set_perm).
    rewrite <- Hunion, (size_union _ _ Hdisj). lia.
Qed.

(** X6: [match_rate] is the integer 0 when the job description has no
    keywords; otherwise it is a float between 0.0 and 100.0, within
    [2^-40] of [total_matched / (total_matched + total_missing) * 100],
    and exactly 100.0 when nothing is missing. *)
Theorem match_rate_between_0_and_100 rd jd ka :
  _analyze_keywords list_of_set rd jd = Ok ka ->
  (match_rate ka = Int 0 /\ total_matched ka + total_missing ka = 0) \/
  (exists r, match_rate ka = Float r /\
     0 < total_matched ka + total_missing ka /\
     fleb zero r = true /\ fleb r hundred = true /\
     float_near r (100 * total_matched ka) (total_matched ka + total_missing ka) = true /\
     (total_missing ka = 0 -> SFeqb r hundred = true)).
Proof.
  intros H. destruct (_analyze_keywords_totals rd jd ka H) as [Htm Hts].
  destruct (matched_missing_partition rd jd ka H) as (jw & Hj & _ & _ & _ & _ & Hsum).
  apply (_analyze_keywords_Ok list_of_set) in H.
  destruct H as (text & jw' & _ & Hj' & _ & _ & Hzero & Hrate).
  assert (jw' = jw) by congruence. subst jw'.
  destruct (decide (jw ∩ all_keywords = ∅)) as [He|Hne].
  - left. split; [exact (Hzero He)|]. rewrite Hsum, He, size_empty. reflexivity.
  - right. exists (percentage (length (matched ka)) (size (jw ∩ all_keywords))).
    split; [exact (Hrate Hne)|].
    assert (Hpos : (1 <= size (jw ∩ all_keywords))%nat).
    { destruct (size (jw ∩ all_keywords)) eqn:Hsz; [|lia].
      apply size_empty_inv, leibniz_equiv in Hsz. contradiction. }
    pose proof (size_job_keywords jw) as Hmax.
    assert (Hle : (length (matched ka) <= size (jw ∩ all_keywords))%nat) by lia.
    destruct (percentage_checked _ _ Hle (conj Hpos Hmax))
      as (_ & Hlo & Hhi & Hnear & Hfull).
    split; [lia|]. split; [exact Hlo|]. split; [exact Hhi|]. split.
    + rewrite Hsum, Htm. exact Hnear.
    + intros Hnone. apply Hfull. lia.
Qed.

(** The division of the matcher returns: its operands are at most 45. *)
Lemma matcher_division_returns (rw jw : gset string) :
  jw ∩ all_keywords <> ∅ ->
  py_truediv (Z.of_nat (length (list_of_set (rw ∩ jw ∩ all_keywords))))
             (Z.of_nat (size (jw ∩ all_keywords)))
  = Ok (fdiv (float_of_int (Z.of_nat (length (list_of_set (rw ∩ jw ∩ all_keywords)))))
             (float_of_int (Z.of_nat (size (jw ∩ all_keywords))))).
Proof.
  intros Hne. apply percentage_checked.
  - rewrite (length_list_of_set list_of_set list_of_set_perm).
    apply subseteq_size. intros w Hw.
    apply elem_of_intersection in Hw as [Hw Hk].
    apply elem_of_intersection in Hw as [_ Hw].
    apply elem_of_intersection. split; assumption.
  - split; [|apply size_job_keywords].
    destruct (size (jw ∩ all_keywords)) eqn:Hsz; [|lia].
    apply size_empty_inv, leibniz_equiv in Hsz. contradiction.
Qed.

End Analysis.

Lemma matched_missing_partition_witness :
  (forall s : gset string, elements s ≡ₚ elements s) /\
  total_matched (proj1_sig sample_keywords) + total_missing (proj1_sig sample_keywords) = 4 /\
  exists jw, job_words_of sample_job = Ok jw /\
    (forall w, w ∈ jw ∩ all_keywords <->
               w ∈ matched (proj1_sig sample_keywords) \/
               w ∈ missing (proj1_sig sample_keywords)).
Proof.
  split; [exact elements_perm|]. split; [reflexivity|].
  destruct (matched_missing_partition elements elements_perm sample_resume sample_job
              _ (proj2_sig sample_keywords)) as (jw & Hj & Hsplit & _).
  exists jw. split; assumption.
Defined.

Lemma match_rate_between_0_and_100_witness :
  (forall s : gset string, elements s ≡ₚ elements s) /\
  exists r, match_rate (proj1_sig sample_keywords) = Float r /\
            fleb zero r = true /\ fleb r hundred = true.
Proof.
  split; [exact elements_perm|].
  destruct (match_rate_between_0_and_100 elements elements_perm sample_resume sample_job
              _ (proj2_sig sample_keywords)) as [[Hint _] | (r & Hr & _ & Hlo & Hhi & _)].
  - discriminate Hint.
  - exists r. repeat split; assumption.
Defined.

(** ** Tokenizer *)

Lemma length_substring_0 n s :
  String.length (String.substring 0 n s) = Nat.min n (String.length s).
Proof.
  revert n. induction s as [|c s IH]; intros [|n]; simpl; try reflexivity.
  rewrite IH. reflexivity.
Qed.

Lemma append_cons c (x y : string) : String c x ++ y = String c (x ++ y).
Proof. reflexivity. Qed.

Lemma append_nil (y : string) : "" ++ y = y.
Proof. reflexivity. Qed.

Lemma span_letters_app s run after :
  span_letters s = (run, after) -> s = run ++ after.
Proof.
  revert run after. induction s as [|c s IH]; simpl; intros run after H.
  - injection H as <- <-. reflexivity.
  - destruct (is_letter c).
    + destruct (span_letters s) as [run' after'] eqn:E.
      injection H as <- <-. rewrite append_cons. f_equal. apply IH. reflexivity.
    + injection H as <- <-. reflexivity.
Qed.

Lemma length_append (x y : string) :
  String.length (x ++ y) = (String.length x + String.length y)%nat.
Proof.
  induction x as [|c x IH]; [reflexivity|].
  rewrite append_cons. simpl. rewrite IH. reflexivity.
Qed.

Lemma backtrack_length n run after w :
  (n <= String.length run)%nat ->
  backtrack n run after = Some w ->
  (3 <= String.length w)%nat /\ (String.length w <= String.length run)%nat.
Proof.
  induction n as [|n IH]; cbn [backtrack]; [discriminate|]. intros Hn.
  destruct (_ && _) eqn:Hb.
  - apply andb_prop in Hb as [H3 _]. apply Nat.leb_le in H3.
    intros [= <-]. rewrite length_substring_0. lia.
  - apply IH. lia.
Qed.

Lemma match_word_length prev s w :
  match_word prev s = Some w ->
  (3 <= String.length w)%nat /\ (String.length w <= String.length s)%nat.
Proof.
  unfold match_word. destruct (at_boundary _ _); [|discriminate].
  destruct (span_letters s) as [run after] eqn:E. intros H.
  apply backtrack_length in H; [|lia].
  apply span_letters_app in E. subst s. rewrite length_append. lia.
Qed.

Lemma findall_from_length s : forall prev skip,
  Forall (fun w => (3 <= String.length w)%nat) (findall_from prev skip s).
Proof.
  induction s as [|c s IH]; intros prev skip; simpl; [constructor|].
  destruct skip as [|k]; [|apply IH].
  destruct (match_word prev (String c s)) as [w|] eqn:E; [|apply IH].
  constructor; [eapply match_word_length, E | apply IH].
Qed.

Lemma lower_char_lowered c : lowered (lower_char c) = true.
Proof. destruct c as [[] [] [] [] [] [] [] []]; vm_compute; reflexivity. Qed.

Lemma lower_lowered s : all_chars lowered (lower s) = true.
Proof.
  induction s as [|c s IH]; simpl; [reflexivity|].
  rewrite lower_char_lowered, IH. reflexivity.
Qed.

Lemma span_letters_lowered s run after :
  all_chars lowered s = true ->
  span_letters s = (run, after) -> all_chars is_lower run = true.
Proof.
  revert run after. induction s as [|c s IH]; simpl; intros run after Hs H.
  - injection H as <- _. reflexivity.
  - apply andb_prop in Hs as [Hc Hs]. destruct (is_letter c) eqn:Hl.
    + destruct (span_letters s) as [run' after'] eqn:E.
      injection H as <- _. simpl. unfold lowered in Hc. rewrite Hl in Hc. simpl in Hc.
      rewrite Hc. simpl. eauto.
    + injection H as <- _. reflexivity.
Qed.

Lemma backtrack_substring n run after w :
  backtrack n run after = Some w -> exists m, w = String.substring 0 m run.
Proof.
  induction n as [|n IH]; simpl; [discriminate|].
  destruct (_ && _); [intros [= <-]; eauto | exact IH].
Qed.

Lemma findall_from_lowered s : forall prev skip,
  all_chars lowered s = true ->
  Forall (fun w => all_chars is_lower w = true) (findall_from prev skip s).
Proof.
  induction s as [|c s IH]; intros prev skip Hs; [constructor|].
  assert (Hs' : all_chars lowered s = true)
    by (simpl in Hs; apply andb_prop in Hs as [_ Hs]; exact Hs).
  cbn [findall_from]. destruct skip as [|k]; [|apply IH, Hs'].
  destruct (match_word prev (String c s)) as [w|] eqn:E; [|apply IH, Hs'].
  constructor; [|apply IH, Hs'].
  unfold match_word in E. destruct (at_boundary _ _); [|discriminate].
  destruct (span_letters (String c s)) as [run after] eqn:Espan.
  apply backtrack_substring in E as [m ->].
  apply substring_all_chars. exact (span_letters_lowered _ _ _ Hs Espan).
Qed.

(** X7: every word of a vocabulary built by [set(re.findall(..., text.lower()))]
    has at least three characters, all of them among a-z. *)
Theorem word_set_words text w :
  w ∈ word_set text ->
  (3 <= String.length w)%nat /\ all_chars is_lower w = true.
Proof.
  unfold word_set, findall_words. rewrite elem_of_list_to_set. intros Hw.
  pose proof (findall_from_length (lower text) None 0) as Hlen.
  pose proof (findall_from_lowered (lower text) None 0 (lower_lowered text)) as Hlow.
  rewrite Forall_forall in Hlen, Hlow. split; [apply Hlen | apply Hlow]; exact Hw.
Qed.

Lemma word_set_words_witness :
  "sql" ∈ word_set "Python3, SQL and Go" /\
  (3 <= String.length "sql")%nat /\ all_chars is_lower "sql" = true.
Proof.
  assert (H : "sql" ∈ word_set "Python3, SQL and Go").
  { refine (proj1 (bool_decide_eq_true _) _). vm_compute. reflexivity. }
  split; [exact H|]. exact (word_set_words "Python3, SQL and Go" "sql" H).
Defined.

Lemma span_letters_app_space x y :
  span_letters (x ++ String " " y)
  = (fst (span_letters x), snd (span_letters x) ++ String " " y).
Proof.
  induction x as [|c x IH]; [reflexivity|].
  rewrite append_cons. cbn [span_letters]. rewrite IH.
  destruct (is_letter c); [|reflexivity].
  destruct (span_letters x) as [run after]. reflexivity.
Qed.

Lemma first_char_app_space after y :
  is_word_opt (first_char (after ++ String " " y)) = is_word_opt (first_char after).
Proof. destruct after; reflexivity. Qed.

Lemma backtrack_after n run a1 a2 :
  is_word_opt (first_char a1) = is_word_opt (first_char a2) ->
  backtrack n run a1 = backtrack n run a2.
Proof.
  intros H. induction n as [|n IH]; cbn [backtrack]; [reflexivity|].
  rewrite IH.
  destruct (String.substring (S n) (String.length run - S n) run) as [|c t].
  - rewrite !append_nil. unfold at_boundary. rewrite H. reflexivity.
  - rewrite !append_cons. reflexivity.
Qed.

Lemma match_word_app_space prev c x y :
  match_word prev (String c x ++ String " " y) = match_word prev (String c x).
Proof.
  unfold match_word. rewrite span_letters_app_space.
  rewrite append_cons. cbn [first_char].
  destruct (at_boundary prev (Some c)); [|reflexivity].
  destruct (span_letters (String c x)) as [run after]. cbn [fst snd].
  apply backtrack_after, first_char_app_space.
Qed.

Lemma match_word_space prev y : match_word prev (String " " y) = None.
Proof. unfold match_word. destruct (at_boundary _ _); reflexivity. Qed.

Lemma findall_from_prev p1 p2 skip s :
  is_word_opt p1 = is_word_opt p2 ->
  findall_from p1 skip s = findall_from p2 skip s.
Proof.
  intros H. destruct s as [|c s]; [reflexivity|]. cbn [findall_from].
  destruct skip; [|reflexivity].
  unfold match_word, at_boundary. rewrite H. reflexivity.
Qed.

Lemma findall_from_app_space y : forall x prev skip,
  (skip <= String.length x)%nat ->
  findall_from prev skip (x ++ String " " y)
  = (findall_from prev skip x ++ findall_from None 0 y)%list.
Proof.
  induction x as [|c x IH]; intros prev skip Hskip.
  - assert (skip = 0%nat) as -> by (simpl in Hskip; lia).
    rewrite append_nil. cbn [findall_from]. rewrite match_word_space.
    apply findall_from_prev. reflexivity.
  - pose proof (match_word_app_space prev c x y) as Hm.
    rewrite append_cons in Hm |- *. cbn [findall_from].
    destruct skip as [|k]; [|apply IH; simpl in Hskip; lia].
    rewrite Hm. destruct (match_word prev (String c x)) as [w|] eqn:E.
    + apply match_word_length in E. rewrite IH; [reflexivity | simpl in E; lia].
    + apply IH. lia.
Qed.

Lemma lower_append (x y : string) : lower (x ++ y) = lower x ++ lower y.
Proof.
  induction x as [|c x IH]; [reflexivity|].
  rewrite append_cons. simpl. rewrite IH. reflexivity.
Qed.

(** X8: tokenizing two texts joined by a space gives the words of the
    first followed by the words of the second: no word is lost, split or
    formed across the space, so the vocabulary of the joined text is the
    union of the two vocabularies. *)
Theorem findall_words_join (x y : string) :
  findall_words (x ++ " " ++ y) = (findall_words x ++ findall_words y)%list /\
  word_set (x ++ " " ++ y) = word_set x ∪ word_set y.
Proof.
  assert (H : forall a b : string,
            findall_words (a ++ " " ++ b) = (findall_words a ++ findall_words b)%list).
  { intros a b. unfold findall_words. apply (findall_from_app_space b a None 0%nat). lia. }
  split; [apply H|].
  unfold word_set. rewrite !lower_append. change (lower " ") with " ".
  rewrite H. apply list_to_set_app_L.
Qed.

(** ** [extract_keywords] and the matcher of [analyze_resume_data] *)

Lemma word_set_join (x y : string) : word_set (x ++ " " ++ y) = word_set x ∪ word_set y.
Proof. apply findall_words_join. Qed.

Lemma union_without_fourth (A B C D E : gset string) :
  A ∪ (B ∪ (C ∪ D)) ⊆ A ∪ (B ∪ (C ∪ (E ∪ D))).
Proof. set_solver. Qed.

Lemma matched_grows (R1 R2 J K : gset string) (w : string) :
  R1 ⊆ R2 -> w ∈ R1 ∩ J ∩ K -> w ∈ R2 ∩ J ∩ K.
Proof. set_solver. Qed.

Lemma missing_shrinks (R1 R2 J K : gset string) (w : string) :
  R1 ⊆ R2 -> w ∈ (J ∖ R2) ∩ K -> w ∈ (J ∖ R1) ∩ K.
Proof. set_solver. Qed.

(** Where [extract_keywords] can read the resume, so can the matcher, and
    every word the matcher sees [extract_keywords] sees too. *)
Lemma extracted_text_covers rd t2 :
  extracted_text rd = Ok t2 ->
  exists t1, analyzed_text rd = Ok t1 /\ word_set t1 ⊆ word_set t2.
Proof.
  unfold extracted_text. intros H. inv_bind H.
  unfold analyzed_text. rewrite E, E0, E1, E3. cbn [mbind result_bind].
  destruct a; try discriminate. destruct a0; try discriminate.
  unfold py_join in *. cbn [str_items mbind result_bind mret result_ret join] in *.
  injection H as <-. eexists. split; [reflexivity|].
  rewrite !word_set_join. apply union_without_fourth.
Qed.

Section Extraction.

Variable list_of_set : gset string -> list string.
Hypothesis list_of_set_perm : forall s, list_of_set s ≡ₚ elements s.

(** X9: whenever [extract_keywords] succeeds, the matcher of
    [analyze_resume_data] succeeds on the same input; every keyword the
    matcher reports as matched is matched for [extract_keywords], every
    keyword [extract_keywords] reports as missing is missing for the
    matcher, and both work with the same job keywords. *)
Theorem extract_keywords_refines_matcher rd jd ke :
  extract_keywords list_of_set rd jd = Success ke ->
  exists ka, _analyze_keywords list_of_set rd jd = Ok ka /\
    (forall w, w ∈ matched ka -> w ∈ matched_keywords ke) /\
    (forall w, w ∈ unmatched_keywords ke -> w ∈ missing ka) /\
    (forall w, w ∈ job_keywords ke <-> w ∈ matched ka \/ w ∈ missing ka).
Proof.
  unfold extract_keywords. intros H. apply try_except_Success in H. inv_bind H.
  destruct (extracted_text_covers rd a E) as (t1 & Ht1 & Hsub).
  destruct (_analyze_keywords list_of_set rd jd) as [ka|e] eqn:Hka.
  - exists ka. split; [reflexivity|].
    destruct (matched_missing_partition list_of_set list_of_set_perm rd jd ka Hka)
      as (jw & Hj & Hsplit & _).
    apply (_analyze_keywords_Ok list_of_set) in Hka.
    destruct Hka as (text & jw' & Ht & Hj' & Hm & Hs & _).
    assert (text = t1) by congruence. assert (jw' = a0) by congruence.
    assert (jw = a0) by congruence. subst text jw' jw ke. cbn.
    split; [|split].
    + intros w Hw. rewrite Hm in Hw.
      apply (elem_of_list_of_set list_of_set list_of_set_perm) in Hw.
      apply (elem_of_list_of_set list_of_set list_of_set_perm).
      exact (matched_grows _ _ _ _ w Hsub Hw).
    + intros w Hw. rewrite Hs.
      apply (elem_of_list_of_set list_of_set list_of_set_perm) in Hw.
      apply (elem_of_list_of_set list_of_set list_of_set_perm).
      exact (missing_shrinks _ _ _ _ w Hsub Hw).
    + intros w. rewrite <- Hsplit.
      apply (elem_of_list_of_set list_of_set list_of_set_perm).
  - exfalso. unfold _analyze_keywords in Hka. rewrite Ht1, E0 in Hka.
    cbn [mbind result_bind] in Hka.
    destruct (decide _) as [|Hne];
      cbn [mbind result_bind mret result_ret] in Hka; [discriminate|].
    rewrite (matcher_division_returns list_of_set list_of_set_perm _ _ Hne) in Hka.
    discriminate.
Qed.

End Extraction.

Lemma sample_extraction :
  { ke | extract_keywords elements sample_resume sample_job = Success ke }.
Proof. eexists. vm_compute. reflexivity. Defined.

Lemma extract_keywords_refines_matcher_witness :
  (forall s : gset string, elements s ≡ₚ elements s) /\
  matched_keywords (proj1_sig sample_extraction) = ["sql"; "docker"; "python"] /\
  exists ka, _analyze_keywords elements sample_resume sample_job = Ok ka /\
    (forall w, w ∈ matched ka -> w ∈ matched_keywords (proj1_sig sample_extraction)).
Proof.
  split; [exact elements_perm|]. split; [reflexivity|].
  destruct (extract_keywords_refines_matcher elements elements_perm sample_resume sample_job
              _ (proj2_sig sample_extraction)) as (ka & Hka & Hm & _).
  exists ka. split; assumption.
Defined.

(** ** Fields that are present but not strings *)

Lemma str_items_strings values : forall i parts v,
  str_items i values = Ok parts -> v ∈ values -> exists s, v = PStr s.
Proof.
  induction values as [|x rest IH]; intros i parts v H Hv.
  - apply elem_of_nil in Hv. contradiction.
  - cbn [str_items] in H. destruct x; try discriminate.
    inv_bind H. apply elem_of_cons in Hv as [->|Hv]; [eauto|].
    exact (IH _ _ _ E Hv).
Qed.

Lemma fields_of_lookup field entries : forall values f v,
  fields_of field entries = Ok values ->
  PDict f ∈ entries -> dict_lookup field f = Some v -> v ∈ values.
Proof.
  induction entries as [|e rest IH]; intros values f v H Hf Hv.
  - apply elem_of_nil in Hf. contradiction.
  - cbn [fields_of] in H. inv_bind H. subst values.
    apply elem_of_cons in Hf as [<-|Hf].
    + cbn [py_get] in E. rewrite Hv in E. injection E as <-. apply list_elem_of_here.
    + apply list_elem_of_further. exact (IH _ _ _ E0 Hf Hv).
Qed.

Lemma joined_fields_strings items key field entries f v t :
  joined_fields (PDict items) key field = Ok t ->
  dict_lookup key items = Some (PList entries) ->
  PDict f ∈ entries -> dict_lookup field f = Some v ->
  exists s, v = PStr s.
Proof.
  unfold joined_fields. intros H Hkey Hf Hv. inv_bind H.
  cbn [py_get] in E. rewrite Hkey in E. injection E as <-.
  cbn [py_iter] in E0. injection E0 as <-.
  unfold py_join in H. inv_bind H.
  eapply str_items_strings; [exact E|]. eapply fields_of_lookup; eassumption.
Qed.

(** X10: a resume whose ['summary'] key holds anything but a string ([None]
    included, which is what an unset summary is stored as) is not
    analysed: [analyze_resume_data] returns the failure dictionary, for
    every job description. *)
Theorem non_string_summary_fails los lim items v jd :
  dict_lookup "summary" items = Some v ->
  (forall s, v <> PStr s) ->
  success (analyze_resume_data los lim (PDict items) jd) = false.
Proof.
  intros Hv Hns. unfold analyze_resume_data.
  destruct (analysis los lim (PDict items) jd) as [r|e] eqn:Hr; [|reflexivity].
  exfalso. apply analysis_Ok in Hr.
  destruct Hr as (c & s & x & e & k & f & ka & sug & _ & _ & _ & _ & _ & _ & Hka & _).
  unfold _analyze_keywords in Hka. inv_bind Hka.
  unfold analyzed_text in E. inv_bind E.
  cbn [py_get] in E2. rewrite Hv in E2. injection E2 as <-.
  unfold py_join in E. inv_bind E.
  cbn [str_items] in E2. destruct v; try discriminate. exact (Hns s0 eq_refl).
Qed.

Lemma non_string_summary_fails_witness :
  success (analyze_resume_data elements default_limits
             (PDict [("email", PStr "a@b.com"); ("summary", PNone)]) (PStr "python")) = false.
Proof.
  apply (non_string_summary_fails elements default_limits
           [("email", PStr "a@b.com"); ("summary", PNone)] PNone (PStr "python"));
    [reflexivity | discriminate].
Defined.

(** X11: a resume with an experience entry whose ['description'] key, or a
    skill entry whose ['name'] key, holds anything but a string ([None]
    included) is not analysed: [analyze_resume_data] returns the failure
    dictionary, wherever the entry stands in its list. *)
Theorem non_string_entry_field_fails los lim items entries f v jd :
  (dict_lookup "experiences" items = Some (PList entries) /\
   dict_lookup "description" f = Some v) \/
  (dict_lookup "skills" items = Some (PList entries) /\
   dict_lookup "name" f = Some v) ->
  PDict f ∈ entries ->
  (forall s, v <> PStr s) ->
  success (analyze_resume_data los lim (PDict items) jd) = false.
Proof.
  intros Hcase Hf Hns. unfold analyze_resume_data.
  destruct (analysis los lim (PDict items) jd) as [r|e] eqn:Hr; [|reflexivity].
  exfalso. apply analysis_Ok in Hr.
  destruct Hr as (c & s & x & e & k & f' & ka & sug & _ & _ & _ & _ & _ & _ & Hka & _).
  unfold _analyze_keywords in Hka. inv_bind Hka.
  unfold analyzed_text in E. inv_bind E.
  destruct Hcase as [[Hkey Hv]|[Hkey Hv]].
  - destruct (joined_fields_strings _ _ _ _ _ _ _ E4 Hkey Hf Hv) as [s' ->].
    exact (Hns s' eq_refl).
  - destruct (joined_fields_strings _ _ _ _ _ _ _ E5 Hkey Hf Hv) as [s' ->].
    exact (Hns s' eq_refl).
Qed.

Lemma non_string_entry_field_fails_witness :
  success (analyze_resume_data elements default_limits
             (PDict [("experiences",
                       PList [ PDict [("description", PStr "Raised sales by 20%")];
                               PDict [("company", PStr "Acme"); ("description", PNone)] ])])
             (PStr "python")) = false.
Proof.
  apply (non_string_entry_field_fails elements default_limits _
           [ PDict [("description", PStr "Raised sales by 20%")];
             PDict [("company", PStr "Acme"); ("description", PNone)] ]
           [("company", PStr "Acme"); ("description", PNone)] PNone (PStr "python")).
  - left. split; reflexivity.
  - apply list_elem_of_further, list_elem_of_here.
  - discriminate.
Defined.

(** ** Well-shaped resumes *)

Lemma entry_with_string_dict field e : entry_with_string field e = true -> is_dict e = true.
Proof. destruct e; simpl; congruence. Qed.

Lemma count_with_dicts key entries :
  forallb is_dict entries = true -> exists n, count_with key entries = Ok n.
Proof.
  induction entries as [|e rest IH]; simpl; [eauto|].
  intros [He Hrest]%andb_prop. destruct e; try discriminate.
  destruct (IH Hrest) as [n ->]. simpl. eauto.
Qed.

Lemma any_with_dicts key entries :
  forallb is_dict entries = true -> exists b, any_with key entries = Ok b.
Proof.
  induction entries as [|e rest IH]; simpl; [eauto|].
  intros [He Hrest]%andb_prop. destruct e; try discriminate. simpl.
  destruct (truthy _); [eexists; reflexivity | exact (IH Hrest)].
Qed.

Lemma forallb_dicts field entries :
  forallb (entry_with_string field) entries = true -> forallb is_dict entries = true.
Proof.
  induction entries as [|e rest IH]; simpl; [reflexivity|].
  intros [He Hrest]%andb_prop. rewrite (entry_with_string_dict _ _ He), (IH Hrest). reflexivity.
Qed.

Lemma py_get_string field f :
  string_or_absent field f = true -> exists s, py_get (PDict f) field (PStr "") = Ok (PStr s).
Proof.
  unfold string_or_absent, py_get. destruct (dict_lookup field f) as [v|]; simpl.
  - destruct v; try discriminate. eauto.
  - eauto.
Qed.

Lemma achievements_found_strings entries :
  forallb (entry_with_string "description") entries = true ->
  exists b, achievements_found entries = Ok b.
Proof.
  induction entries as [|e rest IH]; cbn [forallb achievements_found]; [eauto|].
  intros [He Hrest]%andb_prop. destruct e; try discriminate.
  destruct (py_get_string _ _ He) as [s ->]. cbn [mbind result_bind re_search].
  destruct (search achievement_re s); [eexists; reflexivity | exact (IH Hrest)].
Qed.

Lemma fields_of_strings field entries :
  forallb (entry_with_string field) entries = true ->
  exists values, fields_of field entries = Ok values /\
                 forall i, exists parts, str_items i values = Ok parts.
Proof.
  induction entries as [|e rest IH]; cbn [forallb fields_of].
  - intros _. exists []. split; [reflexivity|]. intros i. exists []. reflexivity.
  - intros [He Hrest]%andb_prop. destruct e; try discriminate.
    destruct (py_get_string _ _ He) as [s ->].
    destruct (IH Hrest) as (values & -> & Hparts).
    exists (PStr s :: values). split; [reflexivity|].
    intros i. destruct (Hparts (S i)) as [parts Hp].
    exists (s :: parts). cbn [str_items]. rewrite Hp. reflexivity.
Qed.

Lemma joined_fields_strings_ok items key field :
  entries_ok key (entry_with_string field) items = true ->
  exists t, joined_fields (PDict items) key field = Ok t.
Proof.
  unfold entries_ok, joined_fields, py_get.
  destruct (dict_lookup key items) as [[]|]; try discriminate. intros H.
  cbn [default from_option id mbind result_bind py_iter].
  destruct (fields_of_strings field l H) as (values & -> & Hparts).
  cbn [mbind result_bind]. unfold py_join.
  destruct (Hparts 0%nat) as [parts ->]. eexists. reflexivity.
Qed.

Lemma section_entries_list items key ok :
  match dict_lookup "content" items with
  | None => true
  | Some (PDict content) => string_or_absent "summary" content
  | Some _ => false
  end = true ->
  entries_ok key ok items = true ->
  exists entries, section_entries (PDict items) key = Ok (PList entries) /\
                  forallb ok entries = true.
Proof.
  unfold entries_ok, section_entries, py_get. intros Hc Hk.
  destruct (dict_lookup key items) as [[]|]; try discriminate.
  destruct (dict_lookup "content" items) as [[]|]; try discriminate;
    cbn [default from_option id mbind result_bind]; eauto.
Qed.

Lemma _check_summary_string items :
  string_or_absent "summary" items = true ->
  exists v, _check_summary (PDict items) = Ok v.
Proof.
  intros H. destruct (py_get_string _ _ H) as [s Hs].
  unfold _check_summary. rewrite Hs. cbn [mbind result_bind].
  destruct (negb (truthy (PStr s))); eexists; reflexivity.
Qed.

Lemma _check_experience_entries rd entries :
  section_entries rd "experiences" = Ok (PList entries) ->
  forallb (entry_with_string "description") entries = true ->
  exists v, _check_experience rd = Ok v.
Proof.
  intros Hsec Hok. unfold _check_experience. rewrite Hsec. cbn [mbind result_bind].
  destruct entries as [|e rest]; [eexists; reflexivity|].
  cbn [truthy negb py_len py_iter mbind result_bind].
  destruct (count_with_dicts "description" _ (forallb_dicts _ _ Hok)) as [n ->].
  destruct (achievements_found_strings _ Hok) as [b ->].
  eexists. reflexivity.
Qed.

Lemma _check_education_entries rd entries :
  section_entries rd "education" = Ok (PList entries) ->
  forallb is_dict entries = true ->
  exists v, _check_education rd = Ok v.
Proof.
  intros Hsec Hok. unfold _check_education. rewrite Hsec. cbn [mbind result_bind].
  destruct entries as [|e rest]; [eexists; reflexivity|].
  cbn [truthy negb py_iter mbind result_bind].
  destruct (any_with_dicts "degree" _ Hok) as [b1 ->].
  destruct (any_with_dicts "institution" _ Hok) as [b2 ->].
  eexists. reflexivity.
Qed.

Lemma _check_skills_entries rd entries :
  section_entries rd "skills" = Ok (PList entries) ->
  forallb is_dict entries = true ->
  exists v, _check_skills rd = Ok v.
Proof.
  intros Hsec Hok. unfold _check_skills. rewrite Hsec. cbn [mbind result_bind].
  destruct entries as [|e rest]; [eexists; reflexivity|].
  cbn [truthy negb py_len py_iter mbind result_bind].
  destruct (any_with_dicts "category" _ Hok) as [b1 ->].
  destruct (any_with_dicts "level" _ Hok) as [b2 ->].
  eexists. reflexivity.
Qed.

Lemma analyzed_text_well_shaped items :
  well_shaped (PDict items) = true -> exists t, analyzed_text (PDict items) = Ok t.
Proof.
  unfold well_shaped. intros H.
  apply andb_prop in H as [H Hsk]. apply andb_prop in H as [H _].
  apply andb_prop in H as [H Hex]. apply andb_prop in H as [Hsum Hcont].
  unfold analyzed_text.
  destruct (py_get_string _ _ Hsum) as [s ->]. cbn [mbind result_bind].
  assert (Hinner : exists s', content_summary (PDict items) = Ok (PStr s')).
  { unfold content_summary. cbn [py_get].
    destruct (dict_lookup "content" items) as [[]|]; try discriminate;
      cbn [default from_option id mbind result_bind].
    - exact (py_get_string _ _ Hcont).
    - exists "". reflexivity. }
  destruct Hinner as [s' ->]. cbn [mbind result_bind].
  destruct (joined_fields_strings_ok _ _ _ Hex) as [d ->].
  destruct (joined_fields_strings_ok _ _ _ Hsk) as [n ->].
  eexists. reflexivity.
Qed.

Lemma _analyze_keywords_well_shaped los items j :
  (forall s, los s ≡ₚ elements s) ->
  well_shaped (PDict items) = true ->
  exists ka, _analyze_keywords los (PDict items) (PStr j) = Ok ka.
Proof.
  intros Hperm H. destruct (analyzed_text_well_shaped items H) as [t Ht].
  unfold _analyze_keywords. rewrite Ht. cbn [mbind result_bind].
  assert (Hjob : exists jw, job_words_of (PStr j) = Ok jw).
  { unfold job_words_of. destruct (truthy (PStr j)); eexists; reflexivity. }
  destruct Hjob as [jw ->]. cbn [mbind result_bind].
  destruct (decide _) as [|Hne]; [eexists; reflexivity|].
  rewrite (matcher_division_returns los Hperm _ _ Hne).
  eexists. reflexivity.
Qed.

Lemma map_result_returns {A B : Type} (f : A -> result B) (l : list A) :
  (forall x, In x l -> exists y, f x = Ok y) -> exists ys, map_result f l = Ok ys.
Proof.
  induction l as [|x rest IH]; intros Hf; [exists []; reflexivity|].
  destruct (Hf x (or_introl eq_refl)) as [y Hy].
  destruct (IH (fun x' Hin => Hf x' (or_intror Hin))) as [ys Hys].
  exists (y :: ys). cbn [map_result]. rewrite Hy, Hys. reflexivity.
Qed.

Lemma nesting_pos v : (1 <= nesting v)%nat.
Proof. destruct v; simpl; lia. Qed.

Lemma list_max_In (n : nat) (l : list nat) : In n l -> (n <= list_max l)%nat.
Proof.
  induction l as [|m rest IH]; [contradiction|].
  intros [->|Hin]; simpl; [lia | specialize (IH Hin); lia].
Qed.

(** [repr] returns on a value that nests no deeper than the calls left
    and whose integers are within the digit limit. *)
Lemma py_repr_returns max_digits depth : forall v,
  (nesting v <= depth)%nat -> digits_within max_digits v = true ->
  exists text, py_repr max_digits depth v = Ok text.
Proof.
  induction depth as [|d IH]; intros v Hn Hd.
  - pose proof (nesting_pos v). lia.
  - destruct v as [| [|] | n | s | l | items]; cbn [py_repr]; try (eexists; reflexivity).
    + unfold repr_int. cbn [digits_within] in Hd.
      destruct (_ && _); [discriminate | eexists; reflexivity].
    + cbn [nesting digits_within] in Hn, Hd. rewrite forallb_forall in Hd.
      destruct (map_result_returns (py_repr max_digits d) l) as [parts ->].
      * intros x Hx. apply IH; [|exact (Hd x Hx)].
        pose proof (list_max_In (nesting x) (map nesting l) (in_map nesting l x Hx)). lia.
      * eexists. reflexivity.
    + cbn [nesting digits_within] in Hn, Hd. rewrite forallb_forall in Hd.
      destruct (map_result_returns
                  (fun kv => k ← py_repr max_digits d (PStr (fst kv));
                             v ← py_repr max_digits d (snd kv);
                             mret (k ++ ": " ++ v)) items) as [parts ->].
      * intros kv Hkv.
        pose proof (list_max_In (nesting (snd kv)) _
                      (in_map (fun kv => nesting (snd kv)) items kv Hkv)) as Hmax.
        pose proof (nesting_pos (snd kv)) as Hpos.
        destruct (IH (PStr (fst kv))) as [k ->]; [simpl; lia | reflexivity |].
        destruct (IH (snd kv)) as [t ->]; [lia | exact (Hd kv Hkv) |].
        eexists. reflexivity.
      * eexists. reflexivity.
Qed.

Lemma py_str_returns lim v :
  printable_under lim v = true -> exists text, py_str lim v = Ok text.
Proof.
  unfold printable_under, py_str. intros [Hn Hd]%andb_prop. apply Nat.leb_le in Hn.
  destruct v; try (eexists; reflexivity);
    apply py_repr_returns; assumption.
Qed.

Lemma absent_sections_returns lim rd text sections :
  py_str lim rd = Ok text -> exists absent, absent_sections lim rd sections = Ok absent.
Proof.
  intros Hstr. induction sections as [|section rest [absent IH]]; [eexists; reflexivity|].
  cbn [absent_sections]. rewrite Hstr, IH. eexists. reflexivity.
Qed.

Lemma _check_formatting_issues_returns lim rd text :
  py_str lim rd = Ok text -> exists issues, _check_formatting_issues lim rd = Ok issues.
Proof.
  intros Hstr. unfold _check_formatting_issues. rewrite Hstr. cbn [mbind result_bind].
  destruct (absent_sections_returns lim rd text
              ["summary"; "experience"; "education"; "skills"] Hstr) as [absent ->].
  eexists. reflexivity.
Qed.

Lemma _generate_suggestions_six c s x e k f ka :
  exists sug,
    _generate_suggestions
      [ ("contact_info", c); ("summary", s); ("experience", x);
        ("education", e); ("skills", k); ("formatting", f) ] ka = Ok sug.
Proof. unfold _generate_suggestions. cbn. eexists. reflexivity. Qed.

(** X12: a well-shaped resume that can be printed is always analysed: for
    a dictionary that has the three entry lists, whose summary, experience
    descriptions and skill names are strings where present (and whose
    ['content'], where present, is a dictionary), which nests less deeply
    than the recursion limit allows and has no integer beyond the digit
    limit, and a job description that is a string, [analyze_resume_data]
    returns a report with ['success': True]. *)
Theorem well_shaped_resume_is_analysed los lim rd j :
  (forall s, los s ≡ₚ elements s) ->
  well_shaped rd = true ->
  printable_under lim rd = true ->
  exists r, analyze_resume_data los lim rd (PStr j) = Success r.
Proof.
  intros Hperm Hws Hprint. destruct rd as [| | | | |items]; try discriminate.
  destruct (_analyze_keywords_well_shaped los items j Hperm Hws) as [ka Hka].
  destruct (py_str_returns lim _ Hprint) as [text Hstr].
  unfold well_shaped in Hws.
  apply andb_prop in Hws as [H Hsk]. apply andb_prop in H as [H Hed].
  apply andb_prop in H as [H Hex]. apply andb_prop in H as [Hsum Hcont].
  destruct (section_entries_list _ _ _ Hcont Hex) as (exps & Hexps & Hexps_ok).
  destruct (section_entries_list _ _ _ Hcont Hed) as (edus & Hedus & Hedus_ok).
  destruct (section_entries_list _ _ _ Hcont Hsk) as (sks & Hsks & Hsks_ok).
  destruct (contact_info_score_full items) as [Hc _].
  destruct (_check_summary_string items Hsum) as [s Hs].
  destruct (_check_experience_entries _ _ Hexps Hexps_ok) as [x Hx].
  destruct (_check_education_entries _ _ Hedus Hedus_ok) as [e He].
  destruct (_check_skills_entries _ _ Hsks (forallb_dicts _ _ Hsks_ok)) as [k Hk].
  destruct (formatting_score_values lim (PDict items))
    as [(err & Herr & _) | (text' & f & _ & Hf & _)]; [congruence|].
  destruct (_check_formatting_issues_returns lim _ text Hstr) as [issues Hissues].
  unfold analyze_resume_data, analysis.
  rewrite Hc, Hs, Hx, He, Hk, Hf. cbn [mbind result_bind].
  unfold py_floordiv. cbn [length Z.of_nat Pos.of_succ_nat Pos.succ Z.eqb mbind result_bind].
  rewrite Hka. cbn [mbind result_bind].
  match goal with
  | |- context [_generate_suggestions ?scores ka] =>
      destruct (_generate_suggestions_six
                  (25 * (Z.b2z (present "email" items) + Z.b2z (present "phone" items)
                         + Z.b2z (present "city" items || present "country" items)
                         + Z.b2z (present "full_name" items))) s x e k f ka) as [sug Hsug]
  end.
  rewrite Hsug. cbn [mbind result_bind]. rewrite Hissues.
  cbn [mbind result_bind mret result_ret try_except].
  eexists. reflexivity.
Qed.

Lemma well_shaped_resume_is_analysed_witness :
  (forall s : gset string, elements s ≡ₚ elements s) /\
  well_shaped sample_resume = true /\
  printable_under default_limits sample_resume = true /\
  exists r, analyze_resume_data elements default_limits sample_resume sample_job = Success r.
Proof.
  split; [exact elements_perm|]. split; [reflexivity|]. split; [reflexivity|].
  apply (well_shaped_resume_is_analysed elements default_limits sample_resume
           "We need Python, SQL and Docker; leadership a plus");
    [exact elements_perm | reflexivity | reflexivity].
Defined.

(** ** Achievements in experience descriptions *)

Lemma search_append r pre s : search r s = true -> search r (pre ++ s) = true.
Proof.
  intros H. induction pre as [|c pre IH]; [exact H|].
  rewrite append_cons. cbn [search]. rewrite IH. apply orb_true_r.
Qed.

Lemma search_prefix r s : matches_prefix r s = true -> search r s = true.
Proof. intros H. destruct s; cbn [search]; rewrite H; reflexivity. Qed.

Lemma matches_prefix_nullable r s : nullable r = true -> matches_prefix r s = true.
Proof. intros H. destruct s; cbn [matches_prefix]; rewrite H; reflexivity. Qed.

Lemma matches_prefix_derivs lit : forall r post,
  matches_prefix (derivs r lit) post = true -> matches_prefix r (lit ++ post) = true.
Proof.
  induction lit as [|c lit IH]; intros r post H; [exact H|].
  rewrite append_cons. cbn [matches_prefix]. rewrite (IH _ _ H). apply orb_true_r.
Qed.

Lemma percent_matches d post :
  is_digit d = true ->
  matches_prefix achievement_re (String d (String "%" post)) = true.
Proof.
  intros H.
  apply (matches_prefix_derivs (String d (String "%" "")) achievement_re post).
  apply matches_prefix_nullable.
  destruct d as [[] [] [] [] [] [] [] []];
    try (vm_compute in H; discriminate); reflexivity.
Qed.

Lemma dollar_matches d post :
  is_digit d = true ->
  matches_prefix achievement_re (String "$" (String d post)) = true.
Proof.
  intros H.
  apply (matches_prefix_derivs (String "$" (String d "")) achievement_re post).
  apply matches_prefix_nullable.
  destruct d as [[] [] [] [] [] [] [] []];
    try (vm_compute in H; discriminate); reflexivity.
Qed.

Lemma duration_rest_matches ws post :
  all_chars is_space ws = true ->
  matches_prefix duration_rest (ws ++ "year" ++ post) = true /\
  matches_prefix duration_rest (ws ++ "month" ++ post) = true.
Proof.
  induction ws as [|c ws IH]; intros H.
  - rewrite !append_nil.
    split; apply matches_prefix_derivs, matches_prefix_nullable; reflexivity.
  - simpl in H. apply andb_prop in H as [Hc Hws]. specialize (IH Hws).
    rewrite (append_cons c ws ("year" ++ post)), (append_cons c ws ("month" ++ post)).
    cbn [matches_prefix].
    assert (Hd : deriv c duration_rest = duration_rest).
    { destruct c as [[] [] [] [] [] [] [] []];
        try (vm_compute in Hc; discriminate); reflexivity. }
    rewrite Hd. destruct IH as [-> ->]. split; apply orb_true_r.
Qed.

Lemma matches_prefix_Void s : matches_prefix Void s = false.
Proof. induction s as [|c s IH]; [reflexivity | exact IH]. Qed.

Lemma matches_prefix_Alt s : forall a b,
  matches_prefix (Alt a b) s = matches_prefix a s || matches_prefix b s.
Proof.
  induction s as [|c s IH]; intros a b.
  { cbn [matches_prefix nullable]. destruct (nullable a), (nullable b); reflexivity. }
  cbn [matches_prefix nullable deriv].
  assert (Halt : matches_prefix (alt (deriv c a) (deriv c b)) s
                 = matches_prefix (deriv c a) s || matches_prefix (deriv c b) s).
  { destruct (deriv c a) eqn:Ha; destruct (deriv c b) eqn:Hb; cbn [alt];
      rewrite ?IH, ?matches_prefix_Void, ?orb_false_r; reflexivity. }
  rewrite Halt.
  destruct (nullable a), (nullable b), (matches_prefix (deriv c a) s),
    (matches_prefix (deriv c b) s); reflexivity.
Qed.

Lemma matches_prefix_alt a b s :
  matches_prefix (alt a b) s = matches_prefix a s || matches_prefix b s.
Proof.
  destruct a, b; cbn [alt];
    rewrite ?matches_prefix_Alt, ?matches_prefix_Void, ?orb_false_r; reflexivity.
Qed.

Lemma matches_prefix_Cat_nullable r1 r2 s :
  nullable r1 = true -> matches_prefix r2 s = true -> matches_prefix (Cat r1 r2) s = true.
Proof.
  intros H1 H2. destruct s as [|c s]; cbn [matches_prefix nullable deriv] in *.
  - rewrite H1. destruct (nullable r2); [reflexivity | discriminate].
  - rewrite H1, matches_prefix_alt.
    apply orb_true_iff in H2 as [-> | ->]; rewrite ?orb_true_r; reflexivity.
Qed.

Lemma duration_matches d s :
  is_digit d = true -> matches_prefix duration_rest s = true ->
  matches_prefix achievement_re (String d s) = true.
Proof.
  intros Hd Hs. cbn [matches_prefix].
  assert (Hderiv : deriv d achievement_re
                   = Alt (Cat (Star (Cls is_digit)) (Chr "%"))
                         (Cat (Star (Cls is_digit)) duration_rest)).
  { destruct d as [[] [] [] [] [] [] [] []];
      try (vm_compute in Hd; discriminate); reflexivity. }
  rewrite Hderiv, matches_prefix_Alt.
  rewrite (matches_prefix_Cat_nullable (Star (Cls is_digit)) duration_rest s eq_refl Hs).
  rewrite !orb_true_r. reflexivity.
Qed.

(** X13: the achievement pattern finds every percentage, dollar amount and
    duration: a text with a digit followed by a percent sign, a dollar
    sign followed by a digit, or a digit followed by optional whitespace
    and "year" or "month", anywhere in it, is matched. *)
Theorem quantified_is_found s : quantified s -> search achievement_re s = true.
Proof.
  intros [pre d post Hd | pre d post Hd | pre d ws post Hd Hws | pre d ws post Hd Hws];
    apply search_append, search_prefix.
  - exact (percent_matches d post Hd).
  - exact (dollar_matches d post Hd).
  - apply (duration_matches d _ Hd), (duration_rest_matches ws post Hws).
  - apply (duration_matches d _ Hd), (duration_rest_matches ws post Hws).
Qed.

Lemma quantified_is_found_witness :
  quantified "Ran the team for 3  years" /\
  search achievement_re "Ran the team for 3  years" = true.
Proof.
  assert (H : quantified "Ran the team for 3  years").
  { exact (quantified_years "Ran the team for " "3" "  " "s" eq_refl eq_refl). }
  split; [exact H | exact (quantified_is_found _ H)].
Defined.

Lemma truthy_nonempty s : s <> "" -> truthy (PStr s) = true.
Proof. intros H. simpl. destruct (String.eqb_spec s ""); [contradiction | reflexivity]. Qed.

Lemma count_with_all_described entries :
  Forall has_description entries ->
  count_with "description" entries = Ok (Z.of_nat (length entries)).
Proof.
  induction 1 as [|e rest (f & s & -> & Hf & Hs) _ IH]; [reflexivity|].
  cbn [count_with py_get]. rewrite Hf. cbn [default from_option id mbind result_bind].
  rewrite IH, (truthy_nonempty s Hs). cbn [mbind result_bind mret result_ret length].
  f_equal. lia.
Qed.

Lemma achievements_found_quantified entries :
  Forall has_description entries ->
  Exists has_quantified_description entries ->
  achievements_found entries = Ok true.
Proof.
  induction 1 as [|e rest (f & s & -> & Hf & Hs) _ IH]; intros Hex.
  - apply Exists_nil in Hex. contradiction.
  - cbn [achievements_found py_get]. rewrite Hf.
    cbn [default from_option id mbind result_bind re_search].
    destruct (search achievement_re s) eqn:Hsearch; [reflexivity|].
    apply Exists_cons in Hex as [(f' & s' & Heq & Hf' & Hq) | Hex]; [|exact (IH Hex)].
    injection Heq as <-. rewrite Hf in Hf'. injection Hf' as <-.
    rewrite (quantified_is_found s Hq) in Hsearch. discriminate.
Qed.

(** X14: two or more experience entries that all have a non-empty
    description, one of which mentions a percentage, a dollar amount or a
    duration, give the full experience score of 100. *)
Theorem described_quantified_experience_scores_100 rd entries :
  section_entries rd "experiences" = Ok (PList entries) ->
  (2 <= length entries)%nat ->
  Forall has_description entries ->
  Exists has_quantified_description entries ->
  _check_experience rd = Ok 100.
Proof.
  intros Hsec Hlen Hall Hex. unfold _check_experience. rewrite Hsec.
  cbn [mbind result_bind].
  destruct entries as [|e rest]; [simpl in Hlen; lia|].
  cbn [truthy negb py_len py_iter mbind result_bind].
  rewrite (count_with_all_described _ Hall). cbn [mbind result_bind].
  unfold py_floordiv. cbn [Z.eqb mbind result_bind].
  rewrite (achievements_found_quantified _ Hall Hex).
  cbn [mbind result_bind mret result_ret]. f_equal.
  assert (Hn : 2 <= Z.of_nat (length (e :: rest))) by lia.
  assert (Hhalf : Z.of_nat (length (e :: rest)) / 2 <= Z.of_nat (length (e :: rest)))
    by (apply Z.div_le_upper_bound; lia).
  apply Z.leb_le in Hn, Hhalf. rewrite Hn, Hhalf. reflexivity.
Qed.

Lemma described_quantified_experience_scores_100_witness :
  _check_experience
    (PDict [("experiences",
              PList [ PDict [("description", PStr "Ran the support desk")];
                      PDict [("description", PStr "Cut costs by 50%")] ])]) = Ok 100.
Proof.
  apply (described_quantified_experience_scores_100 _
           [ PDict [("description", PStr "Ran the support desk")];
             PDict [("description", PStr "Cut costs by 50%")] ]).
  - reflexivity.
  - simpl. lia.
  - repeat constructor; eexists _, _; (split; [reflexivity|]); (split; [reflexivity|]);
      discriminate.
  - apply Exists_cons_tl, Exists_cons_hd. eexists _, _.
    split; [reflexivity|]. split; [reflexivity|].
    exact (quantified_percent "Cut costs by 5" "0" "" eq_refl).
Defined.

(** ** Formatting issues *)

Lemma append_assoc (x y z : string) : (x ++ y) ++ z = x ++ y ++ z.
Proof.
  induction x as [|c x IH]; [reflexivity|].
  rewrite !append_cons, IH. reflexivity.
Qed.

Lemma append_nil_r (x : string) : x ++ "" = x.
Proof.
  induction x as [|c x IH]; [reflexivity|]. rewrite append_cons, IH. reflexivity.
Qed.

Lemma prefix_append a post : String.prefix a (a ++ post) = true.
Proof.
  induction a as [|c a IH]; [destruct post; reflexivity|].
  rewrite append_cons. cbn [String.prefix].
  destruct (ascii_dec c c); [exact IH | contradiction].
Qed.

Lemma within_is_substring a s : within a s -> is_substring a s = true.
Proof.
  intros (pre & post & ->). induction pre as [|c pre IH].
  - rewrite append_nil. destruct (a ++ post) eqn:E; cbn [is_substring];
      rewrite <- E, prefix_append; reflexivity.
  - rewrite append_cons. cbn [is_substring]. rewrite IH. apply orb_true_r.
Qed.

Lemma within_refl a : within a a.
Proof. exists "", "". rewrite append_nil, append_nil_r. reflexivity. Qed.

Lemma within_append_l a p s : within a s -> within a (p ++ s).
Proof.
  intros (pre & post & ->). exists (p ++ pre), post. rewrite append_assoc. reflexivity.
Qed.

Lemma within_append_r a s q : within a s -> within a (s ++ q).
Proof.
  intros (pre & post & ->). exists pre, (post ++ q). rewrite !append_assoc. reflexivity.
Qed.

Lemma within_trans a b s : within a b -> within b s -> within a s.
Proof.
  intros (p1 & q1 & ->) Hb. destruct Hb as (p2 & q2 & ->).
  apply within_append_l, within_append_r, within_append_l, within_append_r, within_refl.
Qed.

Lemma within_lower a s : within a s -> within (lower a) (lower s).
Proof.
  intros (pre & post & ->). exists (lower pre), (lower post).
  rewrite !lower_append. reflexivity.
Qed.

Lemma within_join sep x parts : In x parts -> within x (join sep parts).
Proof.
  induction parts as [|p rest IH]; [contradiction|].
  intros [->|Hin].
  - destruct rest; cbn [join]; [apply within_refl | apply within_append_r, within_refl].
  - destruct rest as [|q rest']; [contradiction|].
    cbn [join]. apply within_append_l, within_append_l. exact (IH Hin).
Qed.

Lemma dict_lookup_In k items v : dict_lookup k items = Some v -> In (k, v) items.
Proof.
  induction items as [|[k' v'] rest IH]; cbn [dict_lookup]; [discriminate|].
  destruct (String.eqb_spec k k') as [->|Hne].
  - intros [= ->]. left. reflexivity.
  - intros H. right. exact (IH H).
Qed.

Lemma map_result_In {A B : Type} (f : A -> result B) (l : list A) : forall ys x,
  map_result f l = Ok ys -> In x l -> exists y, f x = Ok y /\ In y ys.
Proof.
  induction l as [|x0 rest IH]; intros ys x H Hin; [contradiction|].
  cbn [map_result] in H. inv_bind H. subst ys. destruct Hin as [->|Hin].
  - exists a. split; [exact E | left; reflexivity].
  - destruct (IH _ _ E0 Hin) as (y & Hy & Hin'). exists y. split; [exact Hy | right; exact Hin'].
Qed.

(** An item of a printed dictionary shows in it: its key, a colon, its
    value. *)
Lemma dict_item_within max_digits d items text k v :
  py_repr max_digits (S d) (PDict items) = Ok text ->
  In (k, v) items ->
  exists vr, py_repr max_digits d v = Ok vr /\ within (repr_str k ++ ": " ++ vr) text.
Proof.
  intros H Hin. cbn [py_repr] in H. inv_bind H. subst text.
  destruct (map_result_In _ _ _ _ E Hin) as (part & Hpart & Hin').
  cbn [fst snd] in Hpart. inv_bind Hpart. subst part.
  destruct d as [|d']; [discriminate|]. cbn [py_repr] in E0. injection E0 as <-.
  exists a1. split; [exact E1|].
  apply within_append_l, within_append_r. apply within_join. exact Hin'.
Qed.

Lemma py_str_dict lim items text :
  py_str lim (PDict items) = Ok text ->
  exists d, py_repr (max_str_digits lim) (S d) (PDict items) = Ok text \/ items = [].
Proof.
  unfold py_str. destruct (call_depth lim) as [|d]; [discriminate|].
  intros H. exists d. left. exact H.
Qed.

Lemma section_in_text lim section key items text :
  within section (lower (repr_str key)) ->
  dict_lookup key items <> None ->
  py_str lim (PDict items) = Ok text ->
  is_substring section (lower text) = true.
Proof.
  intros Hsec Hkey Hstr. apply within_is_substring.
  destruct (dict_lookup key items) as [v|] eqn:Hk; [|contradiction].
  apply dict_lookup_In in Hk.
  destruct (py_str_dict lim items text Hstr) as [d [Hrepr | ->]]; [|contradiction].
  destruct (dict_item_within _ _ _ _ _ _ Hrepr Hk) as (vr & _ & Hitem).
  apply (within_trans _ _ _ Hsec). apply within_lower.
  apply (within_trans _ _ _ (within_append_r _ _ _ (within_refl (repr_str key))) Hitem).
Qed.

(** X15: a resume dictionary that has the keys summary, experiences,
    education and skills never gets the "missing sections" issue, however
    empty those sections are: the check searches the printed dictionary,
    keys included.  At most the one issue about the content length is
    reported. *)
Theorem section_keys_silence_missing_sections lim items issues :
  dict_lookup "summary" items <> None ->
  dict_lookup "experiences" items <> None ->
  dict_lookup "education" items <> None ->
  dict_lookup "skills" items <> None ->
  _check_formatting_issues lim (PDict items) = Ok issues ->
  Forall (fun issue => issue_type issue = "content_length") issues /\
  (length issues <= 1)%nat.
Proof.
  intros H1 H2 H3 H4 H. unfold _check_formatting_issues in H. inv_bind H.
  assert (S1 := section_in_text lim "summary" "summary" items a
                  (ex_intro _ "'" (ex_intro _ "'" eq_refl)) H1 E).
  assert (S2 := section_in_text lim "experience" "experiences" items a
                  (ex_intro _ "'" (ex_intro _ "s'" eq_refl)) H2 E).
  assert (S3 := section_in_text lim "education" "education" items a
                  (ex_intro _ "'" (ex_intro _ "'" eq_refl)) H3 E).
  assert (S4 := section_in_text lim "skills" "skills" items a
                  (ex_intro _ "'" (ex_intro _ "'" eq_refl)) H4 E).
  cbn [absent_sections] in E0. rewrite E in E0.
  cbn [mbind result_bind mret result_ret] in E0.
  rewrite S1, S2, S3, S4 in E0. injection E0 as <-. subst issues.
  destruct (_ <? 500); [|destruct (10000 <? _)]; cbn [app length];
    split; repeat constructor.
Qed.

Lemma section_keys_silence_missing_sections_witness :
  let items := [ ("summary", PNone); ("experiences", PList []);
                 ("education", PList []); ("skills", PList []) ] in
  _check_formatting_issues default_limits (PDict items)
  = Ok [ {| issue_type := "content_length";
            issue_message := "Resume content appears too short";
            issue_severity := "warning" |} ] /\
  Forall (fun issue => issue_type issue = "content_length")
         [ {| issue_type := "content_length";
              issue_message := "Resume content appears too short";
              issue_severity := "warning" |} ].
Proof.
  intros items.
  assert (H : _check_formatting_issues default_limits (PDict items)
              = Ok [ {| issue_type := "content_length";
                        issue_message := "Resume content appears too short";
                        issue_severity := "warning" |} ])
    by (vm_compute; reflexivity).
  split; [exact H|].
  apply (section_keys_silence_missing_sections default_limits items _
           ltac:(discriminate) ltac:(discriminate) ltac:(discriminate) ltac:(discriminate) H).
Defined.

(** ** Adding a skill *)

Lemma any_with_snoc key entries e b b' :
  any_with key entries = Ok b ->
  any_with key (entries ++ [e])%list = Ok b' ->
  b = true -> b' = true.
Proof.
  revert b b'. induction entries as [|x rest IH]; intros b b' H H' Hb.
  - injection H as <-. discriminate.
  - cbn [any_with app] in H, H'.
    destruct (py_get x key PNone) as [v|]; [|discriminate].
    cbn [mbind result_bind] in H, H'.
    destruct (truthy v); [congruence | exact (IH _ _ H H' Hb)].
Qed.

(** X16: adding a skill entry at the end of the list never lowers the
    skills score. *)
Theorem skills_score_grows rd rd' entries e v v' :
  section_entries rd "skills" = Ok (PList entries) ->
  section_entries rd' "skills" = Ok (PList (entries ++ [e])%list) ->
  _check_skills rd = Ok v ->
  _check_skills rd' = Ok v' ->
  v <= v'.
Proof.
  intros Hsec Hsec' Hv Hv'.
  pose proof (_check_skills_range rd' v' Hv') as Hrange.
  unfold _check_skills in Hv, Hv'. rewrite Hsec in Hv. rewrite Hsec' in Hv'.
  cbn [mbind result_bind] in Hv, Hv'.
  destruct entries as [|x rest]; [injection Hv as <-; lia|].
  cbn [app truthy negb py_len py_iter mbind result_bind] in Hv, Hv'.
  inv_bind Hv. inv_bind Hv'. subst v v'.
  pose proof (any_with_snoc "category" (x :: rest) e _ _ E E1) as Hcat.
  pose proof (any_with_snoc "level" (x :: rest) e _ _ E0 E2) as Hlev.
  clear Hrange E E0 E1 E2.
  assert (Hlen : Z.of_nat (S (length (rest ++ [e])%list)) = Z.of_nat (S (length rest)) + 1).
  { rewrite length_app. cbn [length]. lia. }
  rewrite Hlen. generalize (Z.of_nat (S (length rest))). intros n.
  destruct (Z.leb_spec 10 n), (Z.leb_spec 5 n), (Z.leb_spec 10 (n + 1)),
    (Z.leb_spec 5 (n + 1)); try lia;
    destruct a, a0, a1, a2;
    try (specialize (Hcat eq_refl); discriminate);
    try (specialize (Hlev eq_refl); discriminate);
    lia.
Qed.

Lemma skills_score_grows_witness :
  let python := PDict [("name", PStr "Python")] in
  let sql := PDict [("name", PStr "SQL"); ("level", PStr "expert")] in
  _check_skills (PDict [("skills", PList [python])]) = Ok 30 /\
  _check_skills (PDict [("skills", PList [python; sql])]) = Ok 55 /\
  30 <= 55.
Proof.
  intros python sql. split; [reflexivity|]. split; [reflexivity|].
  exact (skills_score_grows (PDict [("skills", PList [python])])
           (PDict [("skills", PList [python; sql])]) [python] sql 30 55
           eq_refl eq_refl eq_refl eq_refl).
Defined.

(** ** Education score *)

Lemma any_with_some_entry key entries :
  forallb is_dict entries = true ->
  any_with key entries = Ok (some_entry_has key entries).
Proof.
  induction entries as [|e rest IH]; [reflexivity|].
  cbn [forallb]. intros [He Hrest]%andb_prop. destruct e; try discriminate.
  cbn [any_with py_get mbind result_bind some_entry_has existsb]. unfold present.
  destruct (truthy _); [reflexivity | exact (IH Hrest)].
Qed.

(** X17: for a non-empty list of education entries the score is 40, plus
    30 if some entry has a degree, plus 20 if some entry has an
    institution; so it is 90 when both are there and never more. *)
Theorem education_score_levels rd entries :
  section_entries rd "education" = Ok (PList entries) ->
  entries <> [] ->
  forallb is_dict entries = true ->
  _check_education rd
  = Ok (40 + (if some_entry_has "degree" entries then 30 else 0)
           + (if some_entry_has "institution" entries then 20 else 0)).
Proof.
  intros Hsec Hne Hdicts. unfold _check_education. rewrite Hsec.
  cbn [mbind result_bind]. destruct entries as [|e rest]; [contradiction|].
  cbn [truthy negb py_iter mbind result_bind].
  rewrite !(any_with_some_entry _ _ Hdicts). cbn [mbind result_bind mret result_ret].
  f_equal. destruct (some_entry_has "degree" _), (some_entry_has "institution" _); reflexivity.
Qed.

Lemma education_score_levels_witness :
  _check_education
    (PDict [("education", PList [ PDict [("degree", PStr "BSc")];
                                  PDict [("institution", PStr "")] ])]) = Ok 70.
Proof.
  apply (education_score_levels _
           [ PDict [("degree", PStr "BSc")]; PDict [("institution", PStr "")] ]);
    [reflexivity | discriminate | reflexivity].
Defined.

(** ** The "table" penalty *)

Lemma prefix_within s : forall a, String.prefix a s = true -> exists post, s = a ++ post.
Proof.
  induction s as [|b s IH]; intros [|c a]; cbn [String.prefix]; intros H.
  - exists "". reflexivity.
  - discriminate.
  - exists (String b s). reflexivity.
  - destruct (ascii_dec c b) as [->|]; [|discriminate].
    destruct (IH a H) as [post ->]. exists post. reflexivity.
Qed.

Lemma is_substring_within a s : is_substring a s = true -> within a s.
Proof.
  induction s as [|c s IH]; cbn [is_substring]; intros H.
  - rewrite orb_false_r in H. destruct (prefix_within _ _ H) as [post Hpost].
    exists "", post. exact Hpost.
  - apply orb_true_iff in H as [H|H].
    + destruct (prefix_within _ _ H) as [post Hpost]. exists "", post. exact Hpost.
    + apply (within_append_l a (String c "") s), IH, H.
Qed.

Lemma lower_split x : forall s y,
  lower s = x ++ y -> exists s1 s2, s = s1 ++ s2 /\ lower s1 = x /\ lower s2 = y.
Proof.
  induction x as [|c x IH]; intros s y H.
  - exists "", s. repeat split. exact H.
  - destruct s as [|d s]; [discriminate|].
    rewrite append_cons in H. cbn [lower] in H. injection H as Hc Hs.
    destruct (IH s y Hs) as (s1 & s2 & -> & Hx & Hy).
    exists (String d s1), s2. repeat split; [|exact Hy].
    cbn [lower]. rewrite Hc, Hx. reflexivity.
Qed.

Lemma lower_char_letter c : is_lower (lower_char c) = true -> is_letter c = true.
Proof. destruct c as [[] [] [] [] [] [] [] []]; vm_compute; congruence. Qed.

Lemma lower_letters a : all_chars is_lower (lower a) = true -> all_chars is_letter a = true.
Proof.
  induction a as [|c a IH]; [reflexivity|]. cbn [lower all_chars].
  intros [Hc Ha]%andb_prop. rewrite (lower_char_letter c Hc), (IH Ha). reflexivity.
Qed.

Lemma repr_char_letter q c :
  is_letter q = false -> is_letter c = true -> repr_char q c = String c "".
Proof.
  intros Hq Hc. unfold repr_char.
  destruct (Ascii.eqb_spec c q) as [->|_]; [congruence|]. cbn [orb].
  destruct c as [[] [] [] [] [] [] [] []]; try (vm_compute in Hc; discriminate); reflexivity.
Qed.

Lemma repr_chars_letters q a :
  is_letter q = false -> all_chars is_letter a = true -> repr_chars q a = a.
Proof.
  intros Hq. induction a as [|c a IH]; [reflexivity|]. cbn [all_chars repr_chars].
  intros [Hc Ha]%andb_prop. rewrite (repr_char_letter q c Hq Hc), (IH Ha). reflexivity.
Qed.

Lemma repr_chars_append q (x y : string) :
  repr_chars q (x ++ y) = repr_chars q x ++ repr_chars q y.
Proof.
  induction x as [|c x IH]; [reflexivity|].
  rewrite append_cons. cbn [repr_chars]. rewrite IH, append_assoc. reflexivity.
Qed.

(** A run of letters of a string shows unchanged in its printed form. *)
Lemma letters_within_repr a s :
  all_chars is_letter a = true -> within a s -> within a (repr_str s).
Proof.
  intros Ha (pre & post & ->).
  assert (H : forall q, is_letter q = false ->
                within a (String q (repr_chars q (pre ++ a ++ post)) ++ String q "")).
  { intros q Hq. rewrite !repr_chars_append, (repr_chars_letters q a Hq Ha).
    apply within_append_r.
    apply (within_append_l a (String q "") (repr_chars q pre ++ a ++ repr_chars q post)).
    apply within_append_l, within_append_r, within_refl. }
  unfold repr_str. destruct (_ && _); apply H; reflexivity.
Qed.

(** X18: a resume with a top-level text field in which "table" occurs, in
    any letter case and inside any word ("Tableau", "stable", "notable"),
    loses the 30 points of the table check: whenever its formatting is
    scored, the score is 70 or 80, never 100. *)
Theorem table_in_a_field_costs_30 lim items k s v :
  dict_lookup k items = Some (PStr s) ->
  is_substring "table" (lower s) = true ->
  _check_formatting lim (PDict items) = Ok v ->
  v = 70 \/ v = 80.
Proof.
  intros Hk Hs Hv. unfold _check_formatting in Hv. inv_bind Hv.
  assert (Htext : is_substring "table" (lower a) = true).
  { apply dict_lookup_In in Hk.
    destruct (py_str_dict lim items a E) as [d [Hrepr | ->]]; [|contradiction].
    destruct (dict_item_within _ _ _ _ _ _ Hrepr Hk) as (vr & Hvr & Hitem).
    destruct d as [|d']; [discriminate|]. cbn [py_repr] in Hvr. injection Hvr as <-.
    apply is_substring_within in Hs as (pre & post & Hs).
    apply lower_split in Hs as (s1 & s2 & -> & _ & Hs2).
    apply lower_split in Hs2 as (a' & s3 & -> & Ha & _).
    apply within_is_substring. rewrite <- Ha. apply within_lower.
    apply (within_trans _ (repr_str (s1 ++ a' ++ s3))).
    - apply letters_within_repr.
      + apply lower_letters. rewrite Ha. reflexivity.
      + exists s1, s3. reflexivity.
    - apply (within_trans _ _ _ (within_append_l _ _ _
               (within_append_l _ _ _ (within_refl _))) Hitem). }
  rewrite Htext in Hv.
  subst v. case_match; [right | left]; reflexivity.
Qed.

Lemma table_in_a_field_costs_30_witness :
  is_substring "table" (lower "Analyst fluent in Tableau and SQL.") = true /\
  _check_formatting default_limits
    (PDict [("summary", PStr "Analyst fluent in Tableau and SQL.")]) = Ok 70.
Proof.
  split; [reflexivity|].
  assert (H : _check_formatting default_limits
                (PDict [("summary", PStr "Analyst fluent in Tableau and SQL.")]) = Ok 70)
    by (vm_compute; reflexivity).
  destruct (table_in_a_field_costs_30 default_limits
              [("summary", PStr "Analyst fluent in Tableau and SQL.")] "summary"
              "Analyst fluent in Tableau and SQL." 70 eq_refl eq_refl H) as [_|H80].
  - exact H.
  - discriminate H80.
Defined.
